(** * Three thin API clients: Baidu AI, Chinese speech recognition, DingTalk

    A shallow embedding of the request paths of
      - [baidu-ai-integration/baidu_ai_client.py]   (module [Baidu]),
      - [chinese-speech-recognition/chinese_asr.py] (module [ASR]),
      - [dingtalk-assistant/dingtalk_assistant.py]  (module [DingTalk]),
    and the properties of the token cache, the error mapping, the result
    extraction, the hybrid fallback, the temporary files and the use of the
    process environment.

    Conventions of the embedding.
      - A method is a computation [M E S A]: it takes the state (the client
        object and the world it talks to) and returns a value or a raised
        exception, together with the state it leaves behind. A raised
        exception keeps the writes made before it, as in Python.
      - What lies outside the program (clock, HTTP peer, ffmpeg, the two
        recognition engines, temporary-file names) is a field of the world
        record: a function the program consults, with a log of what it was
        asked.
      - Python strings are [string]s holding their UTF-8 encoding.
      - [time.time()] yields a rational number of seconds; floating-point
        rounding is not modelled.
      - [print] has no effect on the state. *)

From Stdlib Require Import ZArith QArith Lqa String Ascii List DecimalString.
From stdpp Require Import gmap strings.

Open Scope string_scope.

(** ** Values decoded from JSON *)

(** The value [response.json()] hands to the program. An object is the
    Python dict as its list of items, in order; a lookup takes the first
    item with the key. Numbers are integers: a number with a fraction or an
    exponent (a Python float) is outside the model. [JNull] is [None]. *)
#[warnings="-register-all"]
Inductive json : Type :=
| JNull
| JBool (b : bool)
| JInt (n : Z)
| JStr (s : string)
| JArr (items : list json)
| JObj (fields : list (string * json)).

Fixpoint dict_get (key : string) (fields : list (string * json)) : option json :=
  match fields with
  | [] => None
  | (k, v) :: rest => if String.eqb k key then Some v else dict_get key rest
  end.

(** [bool(v)]: the falsy values are [None], [False], [0], [''], [[]], [{}]. *)
Definition truthy (v : json) : bool :=
  match v with
  | JNull => false
  | JBool b => b
  | JInt n => negb (n =? 0)%Z
  | JStr s => negb (String.eqb s "")
  | JArr items => match items with [] => false | _ => true end
  | JObj fields => match fields with [] => false | _ => true end
  end.

(** [a or b] *)
Definition py_or (a b : json) : json := if truthy a then a else b.

(** ** Text of a value: [str()] and [repr()] *)

Definition str_of_Z (n : Z) : string := NilZero.string_of_int (Z.to_int n).

Definition hex_digit (n : N) : ascii :=
  match n with
  | 0 => "0" | 1 => "1" | 2 => "2" | 3 => "3" | 4 => "4" | 5 => "5"
  | 6 => "6" | 7 => "7" | 8 => "8" | 9 => "9" | 10 => "a" | 11 => "b"
  | 12 => "c" | 13 => "d" | 14 => "e" | _ => "f"
  end%N%char.

Definition ascii_in (c : ascii) (s : string) : bool :=
  existsb (Ascii.eqb c) (list_ascii_of_string s).

(** One character of [repr(s)], inside the quote [q]. Bytes above 127
    belong to the encoding of a character outside ASCII and are kept, which
    is what [repr] does with every printable character. *)
Definition repr_char (q c : ascii) : string :=
  let n := N_of_ascii c in
  if Ascii.eqb c q || Ascii.eqb c "\" then String "\" (String c "")
  else if (n =? 9)%N then "\t"
  else if (n =? 10)%N then "\n"
  else if (n =? 13)%N then "\r"
  else if (n <? 32)%N || (n =? 127)%N then
    String "\" (String "x" (String (hex_digit (n / 16)) (String (hex_digit (n mod 16)) "")))
  else String c "".

Definition double_quote : ascii := ascii_of_nat 34.

(** [repr(s)]: single quotes, unless [s] has a single quote and no double
    quote. *)
Definition repr_str (s : string) : string :=
  let q : ascii :=
    if ascii_in "'" s && negb (ascii_in double_quote s) then double_quote else "'"%char in
  String q (String.concat "" (map (repr_char q) (list_ascii_of_string s))) +:+ String q "".

Fixpoint py_repr (v : json) : string :=
  match v with
  | JNull => "None"
  | JBool true => "True"
  | JBool false => "False"
  | JInt n => str_of_Z n
  | JStr s => repr_str s
  | JArr items => "[" +:+ String.concat ", " (map py_repr items) +:+ "]"
  | JObj fields =>
      "{" +:+ String.concat ", " (map (fun '(k, x) => repr_str k +:+ ": " +:+ py_repr x) fields) +:+ "}"
  end.

(** One character of a string in [json.dumps(v, ensure_ascii=False)]: the
    quote, the backslash and the control characters are escaped, every other
    byte is kept. *)
Definition dumps_char (c : ascii) : string :=
  let n := N_of_ascii c in
  if Ascii.eqb c double_quote then String "\" (String double_quote "")
  else if Ascii.eqb c "\" then "\\"
  else if (n =? 10)%N then "\n"
  else if (n =? 13)%N then "\r"
  else if (n =? 9)%N then "\t"
  else if (n =? 8)%N then "\b"
  else if (n =? 12)%N then "\f"
  else if (n <? 32)%N then
    "\u00" +:+ String (hex_digit (n / 16)) (String (hex_digit (n mod 16)) "")
  else String c "".

Definition dumps_str (s : string) : string :=
  String double_quote
    (String.concat "" (map dumps_char (list_ascii_of_string s))) +:+ String double_quote "".

(** [json.dumps(v, ensure_ascii=False)] *)
Fixpoint json_dumps (v : json) : string :=
  match v with
  | JNull => "null"
  | JBool true => "true"
  | JBool false => "false"
  | JInt n => str_of_Z n
  | JStr s => dumps_str s
  | JArr items => "[" +:+ String.concat ", " (map json_dumps items) +:+ "]"
  | JObj fields =>
      "{" +:+ String.concat ", "
                (map (fun '(k, x) => dumps_str k +:+ ": " +:+ json_dumps x) fields) +:+ "}"
  end.

(** [str(v)], which is what an f-string field [{v}] inserts. *)
Definition py_str (v : json) : string :=
  match v with
  | JStr s => s
  | _ => py_repr v
  end.

(** [part in msg] on two strings. *)
Fixpoint occurs (part msg : string) : bool :=
  String.prefix part msg ||
  match msg with
  | EmptyString => false
  | String _ rest => occurs part rest
  end.

(** ** Results and the state-and-exception monad *)

Inductive result (E A : Type) : Type :=
| Ok (a : A)
| Raise (e : E).
Arguments Ok {E A} a.
Arguments Raise {E A} e.

Definition M (E S A : Type) : Type := S -> result E A * S.

Definition ret {E S A} (a : A) : M E S A := fun s => (Ok a, s).
Definition raise {E S A} (e : E) : M E S A := fun s => (Raise e, s).
Definition bind {E S A B} (m : M E S A) (k : A -> M E S B) : M E S B :=
  fun s =>
    match m s with
    | (Ok a, s') => k a s'
    | (Raise e, s') => (Raise e, s')
    end.
Definition lift {E S A} (r : result E A) : M E S A := fun s => (r, s).
Definition get {E S} : M E S S := fun s => (Ok s, s).
Definition modify {E S} (f : S -> S) : M E S unit := fun s => (Ok tt, f s).

(** [try: m  except <classes handled>: h e]; [h e = None] for an exception
    that no [except] clause names, which then goes on to the caller. *)
Definition try_except {E S A} (m : M E S A) (h : E -> option (M E S A)) : M E S A :=
  fun s =>
    match m s with
    | (Ok a, s') => (Ok a, s')
    | (Raise e, s') =>
        match h e with
        | Some k => k s'
        | None => (Raise e, s')
        end
    end.

Declare Scope py_scope.
Delimit Scope py_scope with py.
Notation "x <- m ;; k" := (bind m (fun x => k))
  (at level 100, m at next level, k at level 200, right associativity) : py_scope.
Notation "m ;;; k" := (bind m (fun _ => k))
  (at level 100, k at level 200, right associativity) : py_scope.
Open Scope py_scope.

(** Exceptions of the interpreter and of [requests]. The text of an
    exception the interpreter raises by itself is not modelled; a
    [ValueError] carries the message the program builds. *)
Inductive pyexn : Type :=
| ValueError (msg : string)
| KeyError (key : string)
| TypeError
| AttributeError
| JSONDecodeError
| HTTPError (status : Z)
| RequestException (msg : string)
| OverflowError.

(** [key in v] *)
Definition py_in (key : string) (v : json) : result pyexn bool :=
  match v with
  | JObj fields => Ok (match dict_get key fields with Some _ => true | None => false end)
  | JArr items =>
      Ok (existsb (fun x => match x with JStr s => String.eqb s key | _ => false end) items)
  | JStr s => Ok (occurs key s)
  | _ => Raise TypeError
  end.

(** [v.get(key, default)]: only a dict has the method. *)
Definition py_get (v : json) (key : string) (default : json) : result pyexn json :=
  match v with
  | JObj fields => Ok (match dict_get key fields with Some x => x | None => default end)
  | _ => Raise AttributeError
  end.

(** [v[key]] with a string key. *)
Definition py_item (v : json) (key : string) : result pyexn json :=
  match v with
  | JObj fields =>
      match dict_get key fields with
      | Some x => Ok x
      | None => Raise (KeyError key)
      end
  | _ => Raise TypeError
  end.

(** The items [for item in v] goes through. A string yields its characters
    (here one per byte), a dict its keys. *)
Definition py_iter (v : json) : result pyexn (list json) :=
  match v with
  | JArr items => Ok items
  | JStr s => Ok (map (fun c => JStr (String c "")) (list_ascii_of_string s))
  | JObj fields => Ok (map (fun kv => JStr (fst kv)) fields)
  | _ => Raise TypeError
  end.

Definition Qltb (x y : Q) : bool := negb (Qle_bool y x).

(** Sequencing in [result] alone, for code that touches no state. *)
Definition rbind {E A B} (r : result E A) (k : A -> result E B) : result E B :=
  match r with
  | Ok a => k a
  | Raise e => Raise e
  end.
Notation "x <~ r ;; k" := (rbind r (fun x => k))
  (at level 100, r at next level, k at level 200, right associativity) : py_scope.

(** ** [base64.b64encode] *)

Definition b64_alphabet : string :=
  "ABCDEFGHIJKLMNOPQRSTUVWXYZabcdefghijklmnopqrstuvwxyz0123456789+/".

Definition b64_char (n : N) : ascii :=
  match String.get (N.to_nat n) b64_alphabet with
  | Some c => c
  | None => "="%char
  end.

Fixpoint b64encode (data : list ascii) : string :=
  match data with
  | [] => ""
  | [a] =>
      let x := N_of_ascii a in
      String (b64_char (x / 4)) (String (b64_char (x mod 4 * 16)) "==")
  | [a; b] =>
      let x := N_of_ascii a in
      let y := N_of_ascii b in
      String (b64_char (x / 4))
        (String (b64_char (x mod 4 * 16 + y / 16))
           (String (b64_char (y mod 16 * 4)) "="))
  | a :: b :: c :: rest =>
      let x := N_of_ascii a in
      let y := N_of_ascii b in
      let z := N_of_ascii c in
      String (b64_char (x / 4))
        (String (b64_char (x mod 4 * 16 + y / 16))
           (String (b64_char (y mod 16 * 4 + z / 64))
              (String (b64_char (z mod 64)) (b64encode rest))))
  end.


(** ** [base64.b64decode] *)

(** The value of a character of the alphabet ([binascii]'s table). *)
Definition b64_value (c : ascii) : option N :=
  let n := N_of_ascii c in
  if (65 <=? n)%N && (n <=? 90)%N then Some (n - 65)%N
  else if (97 <=? n)%N && (n <=? 122)%N then Some (n - 71)%N
  else if (48 <=? n)%N && (n <=? 57)%N then Some (n + 4)%N
  else if (n =? 43)%N then Some 62%N
  else if (n =? 47)%N then Some 63%N
  else None.

(** The loop of [binascii.a2b_base64] (not in strict mode), as CPython 3.11
    and later have it. [quad_pos] counts the characters of the group of
    four read so far, [leftchar] holds the bits they leave over, [pads] the
    [=] seen since the last character of the alphabet, [out] the bytes
    decoded so far. A character outside the alphabet is skipped; a pad that
    completes a group ends the decoding, any other pad is skipped. At the
    end of the input a group left open is an error ([binascii.Error], a
    subclass of [ValueError]). *)
Fixpoint a2b_base64 (input : list ascii) (quad_pos : nat) (leftchar : N) (pads : nat)
    (out : list ascii) : result pyexn (list ascii) :=
  match input with
  | [] =>
      match quad_pos with
      | O => Ok out
      | S O =>
          Raise (ValueError
                   ("Invalid base64-encoded string: number of data characters ("
                    +:+ str_of_Z (Z.of_nat (length out / 3 * 4 + 1)%nat)
                    +:+ ") cannot be 1 more than a multiple of 4"))
      | _ => Raise (ValueError "Incorrect padding")
      end
  | c :: rest =>
      if Ascii.eqb c "=" then
        if (2 <=? quad_pos)%nat && (4 <=? quad_pos + S pads)%nat then Ok out
        else a2b_base64 rest quad_pos leftchar (if (2 <=? quad_pos)%nat then S pads else pads) out
      else
        match b64_value c with
        | None => a2b_base64 rest quad_pos leftchar pads out
        | Some v =>
            match quad_pos with
            | O => a2b_base64 rest 1 v 0 out
            | S O =>
                a2b_base64 rest 2 (N.land v 15) 0
                  (out ++ [ascii_of_N (N.lor (N.shiftl leftchar 2) (N.shiftr v 4))])
            | S (S O) =>
                a2b_base64 rest 3 (N.land v 3) 0
                  (out ++ [ascii_of_N (N.lor (N.shiftl leftchar 4) (N.shiftr v 2))])
            | _ =>
                a2b_base64 rest 0 0 0
                  (out ++ [ascii_of_N (N.lor (N.shiftl leftchar 6) v)])
            end
        end
  end%list.

(** [base64.b64decode(v)]: a string must be ASCII; a value that is neither
    a string nor bytes is refused. *)
Definition b64decode (v : json) : result pyexn (list ascii) :=
  match v with
  | JStr s =>
      let input := list_ascii_of_string s in
      if forallb (fun c => (N_of_ascii c <? 128)%N) input
      then a2b_base64 input 0 0 0 []
      else Raise (ValueError "string argument should contain only ASCII characters")
  | _ => Raise TypeError
  end.

(** Every character, for properties checked character by character. *)
Definition all_ascii : list ascii := map ascii_of_nat (seq 0 256).

(** The sextets [b64encode] makes of one, two and three bytes. *)
Definition sextet1 (a : ascii) : N := (N_of_ascii a / 4)%N.
Definition sextet2 (a b : ascii) : N := (N_of_ascii a mod 4 * 16 + N_of_ascii b / 16)%N.
Definition sextet3 (b c : ascii) : N := (N_of_ascii b mod 16 * 4 + N_of_ascii c / 64)%N.
Definition sextet4 (c : ascii) : N := (N_of_ascii c mod 64)%N.
Definition sextet2_last (a : ascii) : N := (N_of_ascii a mod 4 * 16)%N.
Definition sextet3_last (b : ascii) : N := (N_of_ascii b mod 16 * 4)%N.

(** The character of a sextet is an ASCII character of the alphabet, not
    the pad, and has the sextet as its value. *)
Definition decodable (n : N) : bool :=
  match b64_value (b64_char n) with
  | Some v => (v =? n)%N
  | None => false
  end
  && negb (Ascii.eqb (b64_char n) "=")
  && (N_of_ascii (b64_char n) <? 128)%N.
(** * The Baidu AI client *)

Module Baidu.

Inductive BaiduAIService : Type := TTS | OCR | WENXIN | NLP | IMAGE.

Definition value (s : BaiduAIService) : string :=
  match s with
  | TTS => "tts"
  | OCR => "ocr"
  | WENXIN => "wenxin"
  | NLP => "nlp"
  | IMAGE => "image"
  end.

Definition name (s : BaiduAIService) : string :=
  match s with
  | TTS => "TTS"
  | OCR => "OCR"
  | WENXIN => "WENXIN"
  | NLP => "NLP"
  | IMAGE => "IMAGE"
  end.

(** [BaiduAIService.<attr>], for the names the program writes after the
    dot: the class has the five members of lines 18-22, and the look-up of
    any other name raises [AttributeError]. *)
Definition member (attr : string) : result pyexn BaiduAIService :=
  match find (fun s => String.eqb (name s) attr) [TTS; OCR; WENXIN; NLP; IMAGE] with
  | Some s => Ok s
  | None => Raise AttributeError
  end.

(** [repr] of a member, the text of the [KeyError] for a member that is
    not a key. *)
Definition repr_member (s : BaiduAIService) : string :=
  "<BaiduAIService." +:+ name s +:+ ": " +:+ repr_str (value s) +:+ ">".

Definition service_eqb (a b : BaiduAIService) : bool := String.eqb (name a) (name b).

(** A dict with members as keys, as its items in order. *)
Fixpoint table_get (key : BaiduAIService) (table : list (BaiduAIService * string))
    : option string :=
  match table with
  | [] => None
  | (k, v) :: rest => if service_eqb k key then Some v else table_get key rest
  end.

(** One item [key: v] of a dict display: a key already there keeps its
    place and takes the new value. *)
Fixpoint table_set (key : BaiduAIService) (v : string) (table : list (BaiduAIService * string))
    : list (BaiduAIService * string) :=
  match table with
  | [] => [(key, v)]
  | (k, x) :: rest =>
      if service_eqb k key then (k, v) :: rest else (k, x) :: table_set key v rest
  end.

Record OCRConfig : Type := {
  image_data : list ascii;
  language_type : string;
  detect_direction : bool;
  detect_language : bool;
  paragraph : bool
}.

(** The attributes of a client that the request paths read or write.
    [endpoints] is [None] on an object that has no such attribute: line 79
    is the only assignment to it. *)
Record BaiduAIClient : Type := {
  api_key : json;
  secret_key : json;
  proxy : json;
  cache_tokens : bool;
  _tokens : gmap string json;
  _token_expiry : gmap string Q;
  endpoints : option (list (BaiduAIService * string))
}.

(** [session.post(url, data=data, headers=headers)] *)
Record Post : Type := {
  url : string;
  data : list (string * json);
  headers : list (string * string)
}.

Record Response : Type := {
  status_code : Z;
  text : string;
  json_body : result pyexn json   (* what [response.json()] gives *)
}.

(** The world of a client: [clock k] is the [k]-th reading of
    [time.time()], [peer k p] what the [k]-th post, [p], comes back with
    (a response, or an exception of the transport), [sent] the posts made
    so far, the latest first. *)
Record World : Type := {
  clock : nat -> Q;
  reads : nat;
  peer : nat -> Post -> result pyexn Response;
  sent : list Post
}.

Record State : Type := { world : World; self : BaiduAIClient }.

Definition os_getenv (env : gmap string string) (name : string) : json :=
  match env !! name with
  | Some s => JStr s
  | None => JNull
  end.

(** The object as lines 66-76 of [__init__] leave it: the two keys, the
    proxy, the flag and two empty dicts; [endpoints] is not assigned yet. *)
Definition before_endpoints (api_key secret_key proxy : json) (cache_tokens : bool)
    (env : gmap string string) : BaiduAIClient :=
  {| api_key := py_or api_key (os_getenv env "BAIDU_API_KEY");
     secret_key := py_or secret_key (os_getenv env "BAIDU_SECRET_KEY");
     proxy := proxy;
     cache_tokens := cache_tokens;
     _tokens := ∅;
     _token_expiry := ∅;
     endpoints := None |}.

(** [self.endpoints = table] *)
Definition set_endpoints (c : BaiduAIClient) (table : list (BaiduAIService * string))
    : BaiduAIClient :=
  {| api_key := api_key c; secret_key := secret_key c; proxy := proxy c;
     cache_tokens := cache_tokens c;
     _tokens := _tokens c; _token_expiry := _token_expiry c;
     endpoints := Some table |}.

(** [BaiduAIClient(api_key, secret_key, proxy, cache_tokens)] in the
    process environment [env]: the client [__init__] has filled, or the
    exception it raised. The dict display of lines 79-85 evaluates its keys
    from the first to the last, each one a look-up in [BaiduAIService]. *)
Definition init (api_key secret_key proxy : json) (cache_tokens : bool)
    (env : gmap string string) : result pyexn BaiduAIClient :=
  let c := before_endpoints api_key secret_key proxy cache_tokens env in
  tts <~ member "TTS" ;;
  ocr_general <~ member "OCR_GENERAL" ;;
  ocr_accurate <~ member "OCR_ACCURATE" ;;
  wenxin <~ member "WENXIN" ;;
  token <~ member "TOKEN" ;;
  Ok (set_endpoints c
        (table_set token "https://aip.baidubce.com/oauth/2.0/token"
        (table_set wenxin "https://aip.baidubce.com/rpc/2.0/ernievilg/v1/txt2img"
        (table_set ocr_accurate "https://aip.baidubce.com/rest/2.0/ocr/v1/accurate_basic"
        (table_set ocr_general "https://aip.baidubce.com/rest/2.0/ocr/v1/general_basic"
        (table_set tts "https://tsn.baidubce.com/text2audio" [])))))).

(** [self.endpoints[BaiduAIService.<attr>]]: the attribute of the client,
    then the member, then the item of the dict. *)
Definition endpoint_at (c : BaiduAIClient) (attr : string) : result pyexn string :=
  match endpoints c with
  | None => Raise AttributeError
  | Some table =>
      key <~ member attr ;;
      match table_get key table with
      | Some address => Ok address
      | None => Raise (KeyError (repr_member key))
      end
  end.

Definition time_time : M pyexn State Q :=
  fun s =>
    let w := world s in
    (Ok (clock w (reads w)),
     {| world := {| clock := clock w; reads := S (reads w);
                    peer := peer w; sent := sent w |};
        self := self s |}).

Definition session_post (p : Post) : M pyexn State Response :=
  fun s =>
    let w := world s in
    (peer w (length (sent w)) p,
     {| world := {| clock := clock w; reads := reads w;
                    peer := peer w; sent := p :: sent w |};
        self := self s |}).

(** [self._tokens[cache_key] = access_token] *)
Definition store_token (cache_key : string) (access_token : json) : M pyexn State unit :=
  modify (fun s =>
    let c := self s in
    {| world := world s;
       self := {| api_key := api_key c; secret_key := secret_key c; proxy := proxy c;
                  cache_tokens := cache_tokens c;
                  _tokens := <[cache_key := access_token]> (_tokens c);
                  _token_expiry := _token_expiry c;
                  endpoints := endpoints c |} |}).

(** [self._token_expiry[cache_key] = expiry] *)
Definition store_expiry (cache_key : string) (expiry : Q) : M pyexn State unit :=
  modify (fun s =>
    let c := self s in
    {| world := world s;
       self := {| api_key := api_key c; secret_key := secret_key c; proxy := proxy c;
                  cache_tokens := cache_tokens c;
                  _tokens := _tokens c;
                  _token_expiry := <[cache_key := expiry]> (_token_expiry c);
                  endpoints := endpoints c |} |}).

(** An integer that [float()] refuses: its magnitude rounds beyond the
    largest double, [2^1024 - 2^971]. *)
Definition too_large_for_float (n : Z) : bool := (2 ^ 1024 - 2 ^ 970 <=? Z.abs n)%Z.

(** [now + expires_in - 300] with [now] a float. An integer is converted
    to a float first, which raises [OverflowError] when it is too large;
    [True] and [False] count as 1 and 0; any other value that is not a
    number cannot be added to a float. *)
Definition expiry_after (now : Q) (expires_in : json) : result pyexn Q :=
  match expires_in with
  | JInt n =>
      if too_large_for_float n then Raise OverflowError
      else Ok (now + inject_Z n - 300)%Q
  | JBool b => Ok (now + (if b then 1 else 0) - 300)%Q
  | _ => Raise TypeError
  end.

Definition scope_of (service : option BaiduAIService) : list (string * json) :=
  match service with
  | Some TTS => [("scope", JStr "audio_tts_post")]
  | Some OCR => [("scope", JStr "brain_ocr_general_basic")]
  | Some WENXIN => [("scope", JStr "brain_all_scope")]
  | _ => []
  end.

Definition cache_key_of (service : option BaiduAIService) : string :=
  match service with
  | Some s => value s
  | None => "default"
  end.

(** Lines 116-119 of [get_access_token]: the token to return from the
    cache, if any. The clock is read only when both dicts have the key. *)
Definition cached_token (cache_key : string) : M pyexn State (option json) :=
  s <- get ;;
  let c := self s in
  if cache_tokens c then
    match _tokens c !! cache_key, _token_expiry c !! cache_key with
    | Some token, Some expiry =>
        now <- time_time ;;
        ret (if Qltb now expiry then Some token else None)
    | _, _ => ret None
    end
  else ret None.

(** Lines 122-134: the form of the exchange. *)
Definition token_params (c : BaiduAIClient) (service : option BaiduAIService)
    : list (string * json) :=
  ([("grant_type", JStr "client_credentials");
    ("client_id", api_key c);
    ("client_secret", secret_key c)] ++ scope_of service)%list.

(** Lines 143-147: what [get_access_token] does with the decoded response,
    the check for an error envelope and the reading of the two fields. *)
Definition token_fields (data : json) : result pyexn (json * json) :=
  has_error <~ py_in "error" data ;;
  if (has_error : bool) then
    description <~ py_get data "error_description" (JStr "未知错误") ;;
    Raise (ValueError ("百度AI错误: " +:+ py_str description))
  else
    access_token <~ py_item data "access_token" ;;
    expires_in <~ py_item data "expires_in" ;;
    Ok (access_token, expires_in).

(** Lines 121-154 of [get_access_token]: the exchange with the token
    endpoint and the write to the cache. The address of the post is looked
    up at line 136, before the call of [session.post]. *)
Definition fetch_token (service : option BaiduAIService) : M pyexn State json :=
  let cache_key := cache_key_of service in
  s <- get ;;
  let c := self s in
  let params := token_params c service in
  address <- lift (endpoint_at c "TOKEN") ;;
  response <- session_post {| url := address; data := params; headers := [] |} ;;
  if negb (status_code response =? 200)%Z then
    raise (ValueError ("获取Token失败: " +:+ str_of_Z (status_code response)
                         +:+ " - " +:+ text response))
  else
    data <- lift (json_body response) ;;
    fields <- lift (token_fields data) ;;
    let '(access_token, expires_in) := fields in
    (if cache_tokens c then
       store_token cache_key access_token ;;;
       now <- time_time ;;
       expiry <- lift (expiry_after now expires_in) ;;
       store_expiry cache_key expiry
     else ret tt) ;;;
    ret access_token.

Definition get_access_token (service : option BaiduAIService) : M pyexn State json :=
  cached <- cached_token (cache_key_of service) ;;
  match cached with
  | Some token => ret token
  | None => fetch_token service
  end.

(** The form both OCR calls post. *)
Definition ocr_params (access_token : json) (config : OCRConfig) : list (string * json) :=
  [("access_token", access_token);
   ("image", JStr (b64encode (image_data config)));
   ("language_type", JStr (language_type config));
   ("detect_direction", JStr (if detect_direction config then "true" else "false"));
   ("detect_language", JStr (if detect_language config then "true" else "false"));
   ("paragraph", JStr (if paragraph config then "true" else "false"))].

(** The loop [for item in ...: words.append(item.get('words', ''))], from
    the list [words] built so far. *)
Fixpoint collect_words (items : list json) (words : list json) : result pyexn (list json) :=
  match items with
  | [] => Ok words
  | item :: rest =>
      w <~ py_get item "words" (JStr "") ;;
      collect_words rest (words ++ [w])%list
  end.

(** What [ocr_general] and [ocr_accurate] do with the decoded response,
    the same but for the [label] that opens the error message: the check
    for an error envelope, then the extraction of the words. *)
Definition ocr_result (label : string) (data : json) : result pyexn (list json) :=
  has_error <~ py_in "error_code" data ;;
  if (has_error : bool) then
    code <~ py_item data "error_code" ;;
    msg <~ py_get data "error_msg" (JStr "未知错误") ;;
    Raise (ValueError (label +:+ " " +:+ py_str code +:+ ": " +:+ py_str msg))
  else
    words_result <~ py_get data "words_result" (JArr []) ;;
    items <~ py_iter words_result ;;
    collect_words items [].

(** [ocr_general] and [ocr_accurate], the same but for the member that
    names the endpoint and the [label] of the error message: the token, the
    form, the address (looked up before the call of [session.post]), the
    post and the treatment of the decoded response. *)
Definition ocr_call (attr : string) (label : string) (config : OCRConfig)
    : M pyexn State (list json) :=
  access_token <- get_access_token (Some OCR) ;;
  let params := ocr_params access_token config in
  s <- get ;;
  address <- lift (endpoint_at (self s) attr) ;;
  response <- session_post
    {| url := address; data := params;
       headers := [("Content-Type", "application/x-www-form-urlencoded")] |} ;;
  data <- lift (json_body response) ;;
  lift (ocr_result label data).

Definition ocr_general : OCRConfig -> M pyexn State (list json) :=
  ocr_call "OCR_GENERAL" "OCR错误".

Definition ocr_accurate : OCRConfig -> M pyexn State (list json) :=
  ocr_call "OCR_ACCURATE" "OCR高精度错误".



(** A failure that carries both parts of an error envelope: a
    [ValueError] whose message has the text of the code and the text of the
    message in it. *)
Definition carries_both {A} (r : result pyexn A) (code message : json) : Prop :=
  exists msg, r = Raise (ValueError msg) /\
              occurs (py_str code) msg = true /\
              occurs (py_str message) msg = true.

(** ** Worlds and clients used as examples *)

(** A clock that starts at [t0] seconds and advances one second a reading. *)
Definition ticking (t0 : Z) (k : nat) : Q := inject_Z (t0 + Z.of_nat k).

Definition answer (data : json) : Response :=
  {| status_code := 200; text := ""; json_body := Ok data |}.

(** A peer that would answer [{access_token: 'T1', expires_in: 3600}] to
    every post; the clock starts at [t0], nothing is logged. *)
Definition world_T1_at (t0 : Z) : World :=
  {| clock := ticking t0;
     reads := 0;
     peer := fun _ _ => Ok (answer (JObj [("access_token", JStr "T1"); ("expires_in", JInt 3600)]));
     sent := [] |}.

(** No call of the constructor returns a client, so the examples take the
    object as [__init__] leaves it when it raises, with caching on, and put
    the entries of the cache in by hand. *)
Definition client_holding (tokens : gmap string json) (expiries : gmap string Q)
    : BaiduAIClient :=
  let c := before_endpoints (JStr "key") (JStr "secret") JNull true ∅ in
  {| api_key := api_key c; secret_key := secret_key c; proxy := proxy c;
     cache_tokens := cache_tokens c;
     _tokens := tokens; _token_expiry := expiries;
     endpoints := endpoints c |}.

(** The token ["T1"] under the key of the OCR scope, good until 4300. *)
Definition holding_T1 : BaiduAIClient :=
  client_holding {["ocr" := JStr "T1"]} {["ocr" := 4300%Q]}.

Definition no_image : OCRConfig :=
  {| image_data := []; language_type := "CHN_ENG"; detect_direction := false;
     detect_language := false; paragraph := false |}.

(** ** The other operations of the client *)

(** [test_connection]: any exception of the exchange is caught. *)
Definition test_connection : M pyexn State bool :=
  try_except
    (token <- get_access_token None ;;
     ret (truthy token))
    (fun _ => Some (ret false)).

(** What [text_to_speech] reads of the response to its post: the header
    [Content-Type] if there is one, the raw content, and what
    [response.json()] gives. *)
Record AudioResponse : Type := {
  content_type : option string;
  content : list ascii;
  error_body : result pyexn json
}.

(** What [text_to_speech] does with the response (lines 190-195), [text]
    being [config.text]. *)
Definition tts_result (response : AudioResponse) (text : string)
    : result pyexn (list ascii * string) :=
  if String.prefix "application/json" (default "" (content_type response)) then
    error_data <~ error_body response ;;
    msg <~ py_get error_data "err_msg" (JStr "未知错误") ;;
    Raise (ValueError ("TTS错误: " +:+ py_str msg))
  else Ok (content response, text).

(** What [wenxin_image_generate] does with the decoded response (lines
    314-322): the check for an error envelope, then the decoding of the
    image. *)
Definition wenxin_result (data : json) : result pyexn (list ascii) :=
  has_error <~ py_in "error_code" data ;;
  if (has_error : bool) then
    code <~ py_item data "error_code" ;;
    msg <~ py_get data "error_msg" (JStr "未知错误") ;;
    Raise (ValueError ("文心一格错误 " +:+ py_str code +:+ ": " +:+ py_str msg))
  else
    has_data <~ py_in "data" data ;;
    has_image <~ (if (has_data : bool) then
                    inner <~ py_item data "data" ;;
                    py_in "image" inner
                  else Ok false) ;;
    if (has_image : bool) then
      inner <~ py_item data "data" ;;
      image <~ py_item inner "image" ;;
      b64decode image
    else Raise (ValueError "文心一格响应格式错误").

(** A response of the image service that carries [image] as base64. *)
Definition image_payload (image : list ascii) : json :=
  JObj [("data", JObj [("image", JStr (b64encode image))])].

End Baidu.

(** * The Chinese speech recognizer *)

Module ASR.

Inductive RecognitionMode : Type := GOOGLE | VOSK | HYBRID.

Record RecognitionResult : Type := {
  text : string;
  confidence : Q;
  mode : RecognitionMode;
  processing_time : Q;
  language : string;
  error : option string
}.

(** [result.mode = m] *)
Definition with_mode (m : RecognitionMode) (r : RecognitionResult) : RecognitionResult :=
  {| text := text r; confidence := confidence r; mode := m;
     processing_time := processing_time r; language := language r; error := error r |}.

Module ASRConfig.
Record t : Type := {
  mode : RecognitionMode;
  language : string;
  proxy : option string;
  vosk_model_path : option string;
  google_api_key : option string;
  auto_convert_formats : bool;
  sample_rate : Z;
  channels : Z
}.
End ASRConfig.

(** The recognizer: its configuration and whether [__init__] left a Vosk
    model in [self.vosk_model]. *)
Record ChineseSpeechRecognizer : Type := {
  config : ASRConfig.t;
  vosk_model : bool
}.

(** Exceptions of the operating system and of the libraries, each with the
    text [str(e)] gives; [OtherError] is any other subclass of
    [Exception]. *)
Inductive exn : Type :=
| CalledProcessError (msg : string)
| FileNotFoundError (msg : string)
| NameError (name : string)
| OtherError (msg : string).

Definition exn_str (e : exn) : string :=
  match e with
  | CalledProcessError msg => msg
  | FileNotFoundError msg => msg
  | NameError name => "name '" +:+ name +:+ "' is not defined"
  | OtherError msg => msg
  end.

(** What the try block of [recognize_with_google] meets: the transcript, or
    one of the exceptions its three handlers tell apart (with [str(e)]). *)
Inductive GoogleOutcome : Type :=
| Heard (transcript : string)
| UnknownValueError
| RequestError (e : string)
| GoogleFailure (e : string).

(** What the try block of [recognize_with_vosk] meets: the text it ends
    with (the partial results and the final one, joined and stripped), or
    one of the exceptions its two handlers tell apart. *)
Inductive VoskOutcome : Type :=
| Transcribed (all_text : string)
| VoskImportError
| VoskFailure (e : string).

Inductive Call : Type :=
| CallGoogle (audio_path : string)
| CallVosk (audio_path : string).

(** The world of a recognizer.
      - [files]: the paths that exist;
      - [tempname k suffix]: the path of the [k]-th file made by
        [tempfile.NamedTemporaryFile(suffix=suffix, delete=False)];
      - [run cmd]: [subprocess.run(cmd, check=True, capture_output=True)],
        which leaves the set of existing paths as it is (ffmpeg writes to
        the output file, which exists already);
      - [lower_suffix p]: [Path(p).suffix.lower()];
      - [speech_api] and [vosk_engine]: the two engines;
      - [clock], [reads]: the readings of [time.time()];
      - [calls]: the calls of the two recognition methods, latest first. *)
Record World : Type := {
  files : gset string;
  tempname : nat -> string -> string;
  created : nat;
  run : list string -> result exn unit;
  lower_suffix : string -> string;
  speech_api : string -> string -> option string -> GoogleOutcome;
  vosk_engine : string -> VoskOutcome;
  clock : nat -> Q;
  reads : nat;
  calls : list Call
}.

Definition set_files (f : gset string) (w : World) : World :=
  {| files := f; tempname := tempname w; created := created w; run := run w;
     lower_suffix := lower_suffix w; speech_api := speech_api w;
     vosk_engine := vosk_engine w; clock := clock w; reads := reads w;
     calls := calls w |}.

Definition time_time : M exn World Q :=
  fun w =>
    (Ok (clock w (reads w)),
     {| files := files w; tempname := tempname w; created := created w; run := run w;
        lower_suffix := lower_suffix w; speech_api := speech_api w;
        vosk_engine := vosk_engine w; clock := clock w; reads := S (reads w);
        calls := calls w |}).

Definition log (c : Call) : M exn World unit :=
  modify (fun w =>
    {| files := files w; tempname := tempname w; created := created w; run := run w;
       lower_suffix := lower_suffix w; speech_api := speech_api w;
       vosk_engine := vosk_engine w; clock := clock w; reads := reads w;
       calls := c :: calls w |}).

(** [with tempfile.NamedTemporaryFile(suffix=suffix, delete=False) as tmp:
    path = tmp.name]: the file is made and stays. *)
Definition NamedTemporaryFile (suffix : string) : M exn World string :=
  fun w =>
    let name := tempname w (created w) suffix in
    (Ok name,
     {| files := {[name]} ∪ files w; tempname := tempname w; created := S (created w);
        run := run w; lower_suffix := lower_suffix w; speech_api := speech_api w;
        vosk_engine := vosk_engine w; clock := clock w; reads := reads w;
        calls := calls w |}).

Definition subprocess_run (cmd : list string) : M exn World unit :=
  fun w => (run w cmd, w).

Definition os_path_exists (path : string) : M exn World bool :=
  fun w => (Ok (bool_decide (path ∈ files w)), w).

Definition os_remove (path : string) : M exn World unit :=
  fun w =>
    if bool_decide (path ∈ files w) then (Ok tt, set_files (files w ∖ {[path]}) w)
    else (Raise (FileNotFoundError
                   ("[Errno 2] No such file or directory: " +:+ repr_str path)), w).

Definition convert_cmd (self : ChineseSpeechRecognizer) (input_path output_path : string)
    : list string :=
  ["ffmpeg"; "-i"; input_path;
   "-ar"; str_of_Z (ASRConfig.sample_rate (config self));
   "-ac"; str_of_Z (ASRConfig.channels (config self));
   "-y"; output_path].

Definition convert_audio_format (self : ChineseSpeechRecognizer)
    (input_path output_format : string) : M exn World string :=
  w <- get ;;
  let input_ext := lower_suffix w input_path in
  if (String.eqb input_ext ".wav" || String.eqb input_ext ".flac")
     && negb (ASRConfig.auto_convert_formats (config self))
  then ret input_path
  else
    output_path <- NamedTemporaryFile ("." +:+ output_format) ;;
    try_except
      (subprocess_run (convert_cmd self input_path output_path) ;;;
       ret output_path)
      (fun e =>
         match e with
         | CalledProcessError _ => Some (ret input_path)
         | FileNotFoundError _ => Some (ret input_path)
         | _ => None
         end).

Definition recognize_with_google (self : ChineseSpeechRecognizer) (audio_path : string)
    : M exn World RecognitionResult :=
  log (CallGoogle audio_path) ;;;
  start_time <- time_time ;;
  w <- get ;;
  let lang := ASRConfig.language (config self) in
  let outcome := speech_api w audio_path lang (ASRConfig.google_api_key (config self)) in
  now <- time_time ;;
  let failed (e : string) :=
    {| text := ""; confidence := 0; mode := GOOGLE;
       processing_time := now - start_time; language := lang; error := Some e |} in
  match outcome with
  | Heard transcript =>
      ret {| text := transcript; confidence := 9 # 10; mode := GOOGLE;
             processing_time := now - start_time; language := lang; error := None |}
  | UnknownValueError => ret (failed "无法识别音频")
  | RequestError e => ret (failed ("Google API请求失败: " +:+ e))
  | GoogleFailure e => ret (failed ("识别过程错误: " +:+ e))
  end.

Definition recognize_with_vosk (self : ChineseSpeechRecognizer) (audio_path : string)
    : M exn World RecognitionResult :=
  log (CallVosk audio_path) ;;;
  start_time <- time_time ;;
  w <- get ;;
  let lang := ASRConfig.language (config self) in
  let failed (now : Q) (e : string) :=
    {| text := ""; confidence := 0; mode := VOSK;
       processing_time := now - start_time; language := lang; error := Some e |} in
  if negb (vosk_model self) then
    now <- time_time ;;
    ret (failed now "Vosk模型未加载")
  else
    let outcome := vosk_engine w audio_path in
    now <- time_time ;;
    match outcome with
    | Transcribed all_text =>
        ret {| text := all_text; confidence := 8 # 10; mode := VOSK;
               processing_time := now - start_time; language := lang; error := None |}
    | VoskImportError => ret (failed now "Vosk未安装")
    | VoskFailure e => ret (failed now ("Vosk识别失败: " +:+ e))
    end.

(** [bool(s)] for a string and for an optional string. *)
Definition nonempty (s : string) : bool := negb (String.eqb s "").
Definition truthy_opt (o : option string) : bool :=
  match o with
  | Some s => nonempty s
  | None => false
  end.

(** [google_result.error or not google_result.text] *)
Definition cloud_failed (google_result : RecognitionResult) : bool :=
  truthy_opt (error google_result) || negb (nonempty (text google_result)).

(** Lines 309-316 of [recognize_audio]: the path to recognize and whether
    it is held to be a temporary file. *)
Definition conversion (self : ChineseSpeechRecognizer) (audio_path : string)
    : M exn World (string * bool) :=
  if ASRConfig.auto_convert_formats (config self) then
    converted_path <- convert_audio_format self audio_path "wav" ;;
    ret (converted_path, negb (String.eqb converted_path audio_path))
  else ret (audio_path, false).

(** [if is_temp and os.path.exists(converted_path):
    os.remove(converted_path)] *)
Definition cleanup (is_temp : bool) (converted_path : string) : M exn World unit :=
  if is_temp then
    there <- os_path_exists converted_path ;;
    if (there : bool) then os_remove converted_path else ret tt
  else ret tt.

(** [self.config.mode] is one of the three members of the enum, so the
    last [else] of the dispatch on the mode has no case here. The handler
    of the [try] builds its result from [time.time() - start_time], and
    [start_time] is a name the method never binds. *)
Definition recognize_audio (self : ChineseSpeechRecognizer) (audio_path : string)
    : M exn World RecognitionResult :=
  there <- os_path_exists audio_path ;;
  if negb there then
    ret {| text := ""; confidence := 0; mode := ASRConfig.mode (config self);
           processing_time := 0; language := ASRConfig.language (config self);
           error := Some ("文件不存在: " +:+ audio_path) |}
  else
    conv <- conversion self audio_path ;;
    let converted_path := fst conv in
    let is_temp := snd conv in
    try_except
      (result <- match ASRConfig.mode (config self) with
                 | GOOGLE => recognize_with_google self converted_path
                 | VOSK => recognize_with_vosk self converted_path
                 | HYBRID =>
                     google_result <- recognize_with_google self converted_path ;;
                     if cloud_failed google_result then
                       result <- recognize_with_vosk self converted_path ;;
                       ret (with_mode HYBRID result)
                     else ret (with_mode HYBRID google_result)
                 end ;;
       cleanup is_temp converted_path ;;;
       ret result)
      (fun e => Some (cleanup is_temp converted_path ;;;
                      _ <- time_time ;;
                      raise (NameError "start_time"))).

Definition dingtalk_cmd (ogg_path wav_path : string) : list string :=
  ["ffmpeg"; "-i"; ogg_path; "-ar"; "16000"; "-ac"; "1";
   "-acodec"; "pcm_s16le"; "-y"; wav_path].

Definition recognize_dingtalk_voice (self : ChineseSpeechRecognizer) (ogg_path : string)
    : M exn World RecognitionResult :=
  wav_path <- NamedTemporaryFile ".wav" ;;
  try_except
    (subprocess_run (dingtalk_cmd ogg_path wav_path) ;;;
     result <- recognize_audio self wav_path ;;
     os_remove wav_path ;;;
     ret result)
    (fun e =>
       match e with
       | CalledProcessError _ => Some (recognize_audio self ogg_path)
       | _ =>
           Some (there <- os_path_exists wav_path ;;
                 (if (there : bool) then os_remove wav_path else ret tt) ;;;
                 ret {| text := ""; confidence := 0;
                        mode := ASRConfig.mode (config self);
                        processing_time := 0;
                        language := ASRConfig.language (config self);
                        error := Some ("钉钉语音处理失败: " +:+ exn_str e) |})
       end).

(** ** Worlds used as examples *)

Definition default_config : ASRConfig.t :=
  {| ASRConfig.mode := HYBRID; ASRConfig.language := "zh-CN"; ASRConfig.proxy := None;
     ASRConfig.vosk_model_path := None; ASRConfig.google_api_key := None;
     ASRConfig.auto_convert_formats := true; ASRConfig.sample_rate := 16000;
     ASRConfig.channels := 1 |}.

(** A recognizer made with the default configuration: no Vosk model. *)
Definition default_recognizer : ChineseSpeechRecognizer :=
  {| config := default_config; vosk_model := false |}.

(** One file, [voice.ogg]; temporary files are [/tmp/tmp0.wav],
    [/tmp/tmp1.wav], ...; every run of ffmpeg ends as [ffmpeg] says and the
    cloud engine answers [cloud]; the clock advances one second a reading. *)
Definition studio (ffmpeg : result exn unit) (cloud : GoogleOutcome) : World :=
  {| files := {["voice.ogg"]};
     tempname := fun k suffix => "/tmp/tmp" +:+ str_of_Z (Z.of_nat k) +:+ suffix;
     created := 0;
     run := fun _ => ffmpeg;
     lower_suffix := fun p => if String.eqb p "voice.ogg" then ".ogg" else ".wav";
     speech_api := fun _ _ _ => cloud;
     vosk_engine := fun _ => Transcribed "你好";
     clock := fun k => inject_Z (Z.of_nat k);
     reads := 0;
     calls := [] |}.

Definition exit_status_1 : result exn unit :=
  Raise (CalledProcessError "Command 'ffmpeg' returned non-zero exit status 1.").

Definition no_ffmpeg : result exn unit :=
  Raise (FileNotFoundError "[Errno 2] No such file or directory: 'ffmpeg'").

(** ** Definitions used to state further properties *)

(** The dispatch on the mode inside [recognize_audio] (lines 320-333). *)
Definition recognize_by_mode (self : ChineseSpeechRecognizer) (converted_path : string)
    : M exn World RecognitionResult :=
  match ASRConfig.mode (config self) with
  | GOOGLE => recognize_with_google self converted_path
  | VOSK => recognize_with_vosk self converted_path
  | HYBRID =>
      google_result <- recognize_with_google self converted_path ;;
      if cloud_failed google_result then
        result <- recognize_with_vosk self converted_path ;;
        ret (with_mode HYBRID result)
      else ret (with_mode HYBRID google_result)
  end.

(** A result that reports an error carries no text and no confidence. *)
Definition all_or_nothing (r : RecognitionResult) : Prop :=
  is_Some (error r) -> text r = "" /\ confidence r = 0%Q.

(** The two handlers of the [try] in [recognize_dingtalk_voice] (lines
    408-423), for the temporary file [wav_path]. *)
Definition dingtalk_handler (self : ChineseSpeechRecognizer) (ogg_path wav_path : string)
    (e : exn) : M exn World RecognitionResult :=
  match e with
  | CalledProcessError _ => recognize_audio self ogg_path
  | _ =>
      there <- os_path_exists wav_path ;;
      (if (there : bool) then os_remove wav_path else ret tt) ;;;
      ret {| text := ""; confidence := 0;
             mode := ASRConfig.mode (config self);
             processing_time := 0;
             language := ASRConfig.language (config self);
             error := Some ("钉钉语音处理失败: " +:+ exn_str e) |}
  end.

End ASR.

(** * The DingTalk assistant *)

Module DingTalk.

Record DingTalkAssistant : Type := {
  access_token : json;
  base_url : string;
  proxy : json
}.

(** [session.post(url, headers=headers, json=body)] *)
Record Request : Type := {
  url : string;
  headers : list (string * json);
  body : json
}.

Record Response : Type := {
  status_code : Z;
  json_body : result pyexn json
}.

(** The world of an assistant: the process environment, what the [k]-th
    post comes back with, and the posts made so far, the latest first. *)
Record World : Type := {
  environ : gmap string string;
  peer : nat -> Request -> result pyexn Response;
  sent : list Request
}.

Record State : Type := { world : World; self : DingTalkAssistant }.

Definition lookup_env (env : gmap string string) (name : string) : json :=
  match env !! name with
  | Some s => JStr s
  | None => JNull
  end.

(** [os.getenv(name)] *)
Definition os_getenv (name : string) : M pyexn State json :=
  fun s => (Ok (lookup_env (environ (world s)) name), s).

(** [DingTalkAssistant.__init__], in the process environment [env]. *)
Definition init (access_token proxy : json) (env : gmap string string) : DingTalkAssistant :=
  {| access_token := py_or access_token (lookup_env env "DINGTALK_ACCESS_TOKEN");
     base_url := "https://api.dingtalk.com/v1.0";
     proxy := proxy |}.

Definition session_post (r : Request) : M pyexn State Response :=
  fun s =>
    let w := world s in
    (peer w (length (sent w)) r,
     {| world := {| environ := environ w; peer := peer w; sent := r :: sent w |};
        self := self s |}).

(** [response.raise_for_status()] *)
Definition raise_for_status (response : Response) : M pyexn State unit :=
  if (400 <=? status_code response)%Z && (status_code response <? 600)%Z
  then raise (HTTPError (status_code response))
  else ret tt.

Definition set_access_token (token : json) : M pyexn State unit :=
  modify (fun s =>
    {| world := world s;
       self := {| access_token := token; base_url := base_url (self s);
                  proxy := proxy (self s) |} |}).

Definition get_access_token (client_id client_secret : string) : M pyexn State json :=
  s <- get ;;
  response <- session_post
    {| url := base_url (self s) +:+ "/oauth2/accessToken";
       headers := [];
       body := JObj [("appKey", JStr client_id); ("appSecret", JStr client_secret)] |} ;;
  raise_for_status response ;;;
  result <- lift (json_body response) ;;
  token <- lift (py_get result "accessToken" JNull) ;;
  set_access_token token ;;;
  ret token.

(** The request all four send methods post. *)
Definition batchSend (c : DingTalkAssistant) (robot_code : json) (user_ids : list string)
    (msg_key : string) (msg_param : json) : Request :=
  {| url := base_url c +:+ "/robot/oToMessages/batchSend";
     headers := [("x-acs-dingtalk-access-token", access_token c);
                 ("Content-Type", JStr "application/json")];
     body := JObj [("robotCode", robot_code);
                   ("userIds", JArr (map JStr user_ids));
                   ("msgKey", JStr msg_key);
                   ("msgParam", JStr (json_dumps msg_param))] |}.

(** The end of the four send methods: post, check the status, decode. *)
Definition post_and_decode (r : Request) : M pyexn State json :=
  response <- session_post r ;;
  raise_for_status response ;;;
  lift (json_body response).

Definition send_text_message (user_id content : string) (robot_code : json)
    : M pyexn State json :=
  s <- get ;;
  if negb (truthy (access_token (self s))) then
    raise (ValueError "Access Token未设置，请先调用get_access_token或设置环境变量")
  else
    from_env <- os_getenv "DINGTALK_ROBOT_CODE" ;;
    let robot_code := py_or robot_code from_env in
    if negb (truthy robot_code) then raise (ValueError "机器人Code未设置")
    else
      post_and_decode
        (batchSend (self s) robot_code [user_id] "sampleText"
           (JObj [("content", JStr content)])).

Definition send_markdown_message (user_id title text : string) (robot_code : json)
    : M pyexn State json :=
  s <- get ;;
  from_env <- os_getenv "DINGTALK_ROBOT_CODE" ;;
  let robot_code := py_or robot_code from_env in
  post_and_decode
    (batchSend (self s) robot_code [user_id] "sampleMarkdown"
       (JObj [("title", JStr title); ("text", JStr text)])).

Definition send_link_message (user_id title text message_url : string)
    (pic_url robot_code : json) : M pyexn State json :=
  s <- get ;;
  from_env <- os_getenv "DINGTALK_ROBOT_CODE" ;;
  let robot_code := py_or robot_code from_env in
  let msg_param :=
    ([("title", JStr title); ("text", JStr text); ("messageUrl", JStr message_url)]
     ++ (if truthy pic_url then [("picUrl", pic_url)] else []))%list in
  post_and_decode (batchSend (self s) robot_code [user_id] "sampleLink" (JObj msg_param)).

Definition batch_send (user_ids : list string) (msg_key : string) (msg_param : json)
    (robot_code : json) : M pyexn State json :=
  s <- get ;;
  from_env <- os_getenv "DINGTALK_ROBOT_CODE" ;;
  let robot_code := py_or robot_code from_env in
  post_and_decode (batchSend (self s) robot_code user_ids msg_key msg_param).

(** The calls that send a message, with their arguments but for
    [robot_code]. *)
Inductive Send : Type :=
| SendText (user_id content : string)
| SendMarkdown (user_id title text : string)
| SendLink (user_id title text message_url : string) (pic_url : json)
| SendBatch (user_ids : list string) (msg_key : string) (msg_param : json).

Definition send (call : Send) (robot_code : json) : M pyexn State json :=
  match call with
  | SendText user_id content => send_text_message user_id content robot_code
  | SendMarkdown user_id title text => send_markdown_message user_id title text robot_code
  | SendLink user_id title text message_url pic_url =>
      send_link_message user_id title text message_url pic_url robot_code
  | SendBatch user_ids msg_key msg_param => batch_send user_ids msg_key msg_param robot_code
  end.

(** The state of the assistant [c] in a process whose environment is
    [env], with a peer that acknowledges every post and nothing sent yet. *)
Definition acknowledged : Response :=
  {| status_code := 200; json_body := Ok (JObj [("processQueryKey", JStr "q")]) |}.

Definition in_environment (c : DingTalkAssistant) (env : gmap string string) : State :=
  {| world := {| environ := env; peer := fun _ _ => Ok acknowledged; sent := [] |};
     self := c |}.

(** Two environments that differ in the robot code only. *)
Definition env_robot (code : string) : gmap string string :=
  {[ "DINGTALK_ACCESS_TOKEN" := "tok"; "DINGTALK_ROBOT_CODE" := code ]}.

End DingTalk.
(** * Facts about the shared definitions *)

Lemma Qltb_lt (x y : Q) : Qltb x y = true <-> (x < y)%Q.
Proof.
  unfold Qltb. rewrite negb_true_iff. split.
  - intros H. apply Qnot_le_lt. intros Hle.
    apply Qle_bool_iff in Hle. congruence.
  - intros H. destruct (Qle_bool y x) eqn:Hb; [|reflexivity].
    apply Qle_bool_iff in Hb. exfalso. exact (Qlt_not_le _ _ H Hb).
Qed.

Lemma prefix_app (p s : string) : String.prefix p (p +:+ s) = true.
Proof.
  induction p as [|c p IH]; simpl.
  - destruct s; reflexivity.
  - destruct (ascii_dec c c); [exact IH | congruence].
Qed.

Lemma occurs_prefix (part msg : string) :
  String.prefix part msg = true -> occurs part msg = true.
Proof. intros H. destruct msg; cbn [occurs]; rewrite H; reflexivity. Qed.

Lemma occurs_app (pre part post : string) :
  occurs part (pre +:+ part +:+ post) = true.
Proof.
  induction pre as [|c pre IH].
  - apply occurs_prefix. exact (prefix_app part post).
  - change (occurs part (String c (pre +:+ part +:+ post)) = true).
    cbn [occurs]. rewrite IH. apply orb_true_r.
Qed.


Lemma append_assoc (a b c : string) : (a +:+ b) +:+ c = a +:+ (b +:+ c).
Proof.
  induction a as [|x a IH]; [reflexivity|].
  change (String x ((a +:+ b) +:+ c) = String x (a +:+ (b +:+ c))).
  rewrite IH. reflexivity.
Qed.

Lemma append_empty_r (a : string) : a +:+ "" = a.
Proof.
  induction a as [|x a IH]; [reflexivity|].
  change (String x (a +:+ "") = String x a). rewrite IH. reflexivity.
Qed.

Lemma occurs_suffix (pre part : string) : occurs part (pre +:+ part) = true.
Proof. rewrite <- (append_empty_r part) at 2. apply occurs_app. Qed.

(** Unfolding of the monad's plumbing. *)
Ltac run :=
  unfold bind, rbind, lift, raise, ret, get, modify, try_except in *; simpl in *.

(** Case analysis on the next thing the computation inspects. *)
Ltac branch :=
  match goal with
  | H : context [match ?x with _ => _ end] |- _ =>
      let E := fresh "E" in destruct x eqn:E; simpl in H
  | |- context [match ?x with _ => _ end] =>
      let E := fresh "E" in destruct x eqn:E; simpl
  end.

(** A file made and removed again leaves the set of files as it was. *)
Lemma add_remove_fresh (x : string) (F : gset string) :
  x ∉ F -> ({[x]} ∪ F) ∖ {[x]} = F.
Proof.
  intros Hx. apply set_eq. intros y.
  rewrite elem_of_difference, elem_of_union, !elem_of_singleton.
  split.
  - intros [[-> | Hy] Hne]; [contradiction | exact Hy].
  - intros Hy. split; [right; exact Hy | intros ->; contradiction].
Qed.

(** ** The base64 codec *)

Lemma in_all_ascii (a : ascii) : In a all_ascii.
Proof.
  rewrite <- (ascii_nat_embedding a). apply in_map, in_seq.
  pose proof (nat_ascii_bounded a). lia.
Qed.

Lemma for_all_ascii (P : ascii -> bool) :
  forallb P all_ascii = true -> forall a, P a = true.
Proof.
  intros H a. rewrite forallb_forall in H. apply H, in_all_ascii.
Qed.

Lemma for_all_ascii2 (P : ascii -> ascii -> bool) :
  forallb (fun a => forallb (P a) all_ascii) all_ascii = true ->
  forall a b, P a b = true.
Proof.
  intros H a b. apply (for_all_ascii (P a)), (for_all_ascii _ H).
Qed.

Lemma decodable_sextets a b :
  decodable (sextet1 a) = true /\ decodable (sextet2 a b) = true /\
  decodable (sextet3 a b) = true /\ decodable (sextet4 a) = true /\
  decodable (sextet2_last a) = true /\ decodable (sextet3_last a) = true.
Proof.
  assert (forall a b, decodable (sextet1 a) && decodable (sextet2 a b)
                      && decodable (sextet3 a b) && decodable (sextet4 a)
                      && decodable (sextet2_last a) && decodable (sextet3_last a) = true) as H.
  { apply for_all_ascii2. vm_compute. reflexivity. }
  specialize (H a b).
  apply andb_prop in H as [H H6]. apply andb_prop in H as [H H5].
  apply andb_prop in H as [H H4]. apply andb_prop in H as [H H3].
  apply andb_prop in H as [H1 H2].
  repeat split; assumption.
Qed.

(** The bytes that the decoder puts together from the sextets of the
    encoder are the bytes that were encoded. *)
Lemma sextets_to_bytes a b c :
  ascii_of_N (N.lor (N.shiftl (sextet1 a) 2) (N.shiftr (sextet2 a b) 4)) = a /\
  N.land (sextet2 a b) 15 = (N_of_ascii b / 16)%N /\
  ascii_of_N (N.lor (N.shiftl (N_of_ascii b / 16) 4) (N.shiftr (sextet3 b c) 2)) = b /\
  N.land (sextet3 b c) 3 = (N_of_ascii c / 64)%N /\
  ascii_of_N (N.lor (N.shiftl (N_of_ascii c / 64) 6) (sextet4 c)) = c.
Proof.
  assert (forall a b,
             Ascii.eqb (ascii_of_N (N.lor (N.shiftl (sextet1 a) 2)
                                      (N.shiftr (sextet2 a b) 4))) a
             && (N.land (sextet2 a b) 15 =? N_of_ascii b / 16)%N
             && Ascii.eqb (ascii_of_N (N.lor (N.shiftl (N_of_ascii a / 16) 4)
                                         (N.shiftr (sextet3 a b) 2))) a
             && (N.land (sextet3 a b) 3 =? N_of_ascii b / 64)%N
             && Ascii.eqb (ascii_of_N (N.lor (N.shiftl (N_of_ascii a / 64) 6) (sextet4 a))) a
             = true) as H.
  { apply for_all_ascii2. vm_compute. reflexivity. }
  pose proof (H a b) as Hab. pose proof (H b c) as Hbc. pose proof (H c c) as Hcc.
  apply andb_prop in Hab as [Hab _]. apply andb_prop in Hab as [Hab _].
  apply andb_prop in Hab as [Hab _]. apply andb_prop in Hab as [Ha Hleft2].
  apply andb_prop in Hbc as [Hbc _]. apply andb_prop in Hbc as [Hbc Hleft3].
  apply andb_prop in Hbc as [_ Hb].
  apply andb_prop in Hcc as [_ Hc].
  apply Ascii.eqb_eq in Ha, Hb, Hc. apply N.eqb_eq in Hleft2, Hleft3.
  repeat split; assumption.
Qed.

(** The bytes of the two short last groups. *)
Lemma last_sextets_to_bytes a b :
  ascii_of_N (N.lor (N.shiftl (sextet1 a) 2) (N.shiftr (sextet2_last a) 4)) = a /\
  ascii_of_N (N.lor (N.shiftl (N_of_ascii b / 16) 4) (N.shiftr (sextet3_last b) 2)) = b.
Proof.
  assert (forall a,
             Ascii.eqb (ascii_of_N (N.lor (N.shiftl (sextet1 a) 2)
                                      (N.shiftr (sextet2_last a) 4))) a
             && Ascii.eqb (ascii_of_N (N.lor (N.shiftl (N_of_ascii a / 16) 4)
                                         (N.shiftr (sextet3_last a) 2))) a
             = true) as H.
  { apply for_all_ascii. vm_compute. reflexivity. }
  pose proof (H a) as Ha. pose proof (H b) as Hb.
  apply andb_prop in Ha as [Ha _]. apply andb_prop in Hb as [_ Hb].
  apply Ascii.eqb_eq in Ha, Hb. auto.
Qed.

(** The decoder on the character of a sextet. *)
Lemma a2b_base64_sextet n rest quad_pos leftchar pads out :
  decodable n = true ->
  a2b_base64 (b64_char n :: rest) quad_pos leftchar pads out =
  match quad_pos with
  | O => a2b_base64 rest 1 n 0 out
  | S O =>
      a2b_base64 rest 2 (N.land n 15) 0
        (out ++ [ascii_of_N (N.lor (N.shiftl leftchar 2) (N.shiftr n 4))])
  | S (S O) =>
      a2b_base64 rest 3 (N.land n 3) 0
        (out ++ [ascii_of_N (N.lor (N.shiftl leftchar 4) (N.shiftr n 2))])
  | _ => a2b_base64 rest 0 0 0 (out ++ [ascii_of_N (N.lor (N.shiftl leftchar 6) n)])
  end%list.
Proof.
  unfold decodable. intros H.
  apply andb_prop in H as [H Hascii]. apply andb_prop in H as [Hvalue Hpad].
  apply negb_true_iff in Hpad.
  cbn [a2b_base64]. rewrite Hpad.
  destruct (b64_value (b64_char n)) as [v|]; [|discriminate].
  apply N.eqb_eq in Hvalue. subst v. reflexivity.
Qed.

Lemma list_by_threes {A} (P : list A -> Prop) :
  P [] ->
  (forall a, P [a]) ->
  (forall a b, P [a; b]) ->
  (forall a b c l, P l -> P (a :: b :: c :: l)) ->
  forall l, P l.
Proof.
  intros H0 H1 H2 H3 l.
  assert (P l /\ (forall a, P (a :: l)) /\ (forall a b, P (a :: b :: l))) as [H _].
  { induction l as [|x l (IH0 & IH1 & IH2)]; [auto|].
    split; [apply IH1|]. split; [intros a; apply IH2|].
    intros a b. apply H3, IH0. }
  exact H.
Qed.

Lemma a2b_base64_b64encode data :
  forall leftchar pads out,
    a2b_base64 (list_ascii_of_string (b64encode data)) 0 leftchar pads out
      = Ok (out ++ data)%list.
Proof.
  induction data as [|a|a b|a b c data IH] using list_by_threes; intros leftchar pads out.
  - simpl. rewrite app_nil_r. reflexivity.
  - destruct (decodable_sextets a a) as (H1 & _ & _ & _ & H2 & _).
    destruct (last_sextets_to_bytes a a) as [Ha _].
    change (list_ascii_of_string (b64encode [a]))
      with (b64_char (sextet1 a) :: b64_char (sextet2_last a) :: ["="; "="]%char).
    rewrite (a2b_base64_sextet _ _ _ _ _ _ H1), (a2b_base64_sextet _ _ _ _ _ _ H2), Ha.
    reflexivity.
  - destruct (decodable_sextets a b) as (H1 & H2 & _).
    destruct (decodable_sextets b b) as (_ & _ & _ & _ & _ & H3).
    destruct (sextets_to_bytes a b b) as (Ha & Hleft & _).
    destruct (last_sextets_to_bytes b b) as [_ Hb].
    change (list_ascii_of_string (b64encode [a; b]))
      with (b64_char (sextet1 a) :: b64_char (sextet2 a b)
            :: b64_char (sextet3_last b) :: ["="]%char).
    rewrite (a2b_base64_sextet _ _ _ _ _ _ H1), (a2b_base64_sextet _ _ _ _ _ _ H2),
      (a2b_base64_sextet _ _ _ _ _ _ H3), Ha, Hleft, Hb.
    cbn [a2b_base64]. rewrite <- !app_assoc. reflexivity.
  - destruct (decodable_sextets a b) as (H1 & H2 & _).
    destruct (decodable_sextets b c) as (_ & _ & H3 & _).
    destruct (decodable_sextets c c) as (_ & _ & _ & H4 & _).
    destruct (sextets_to_bytes a b c) as (Ha & Hleft2 & Hb & Hleft3 & Hc).
    change (list_ascii_of_string (b64encode (a :: b :: c :: data)))
      with (b64_char (sextet1 a) :: b64_char (sextet2 a b) :: b64_char (sextet3 b c)
            :: b64_char (sextet4 c) :: list_ascii_of_string (b64encode data)).
    rewrite (a2b_base64_sextet _ _ _ _ _ _ H1), (a2b_base64_sextet _ _ _ _ _ _ H2),
      (a2b_base64_sextet _ _ _ _ _ _ H3), (a2b_base64_sextet _ _ _ _ _ _ H4),
      Ha, Hleft2, Hb, Hleft3, Hc, IH.
    rewrite <- !app_assoc. reflexivity.
Qed.

Lemma b64encode_is_ascii data :
  forallb (fun c => (N_of_ascii c <? 128)%N) (list_ascii_of_string (b64encode data)) = true.
Proof.
  assert (forall n, decodable n = true -> (N_of_ascii (b64_char n) <? 128)%N = true) as Hchar.
  { unfold decodable. intros n H. apply andb_prop in H as [_ H]. exact H. }
  induction data as [|a|a b|a b c data IH] using list_by_threes.
  - reflexivity.
  - destruct (decodable_sextets a a) as (H1 & _ & _ & _ & H2 & _).
    change (list_ascii_of_string (b64encode [a]))
      with (b64_char (sextet1 a) :: b64_char (sextet2_last a) :: ["="; "="]%char).
    cbn [forallb]. rewrite (Hchar _ H1), (Hchar _ H2). reflexivity.
  - destruct (decodable_sextets a b) as (H1 & H2 & _).
    destruct (decodable_sextets b b) as (_ & _ & _ & _ & _ & H3).
    change (list_ascii_of_string (b64encode [a; b]))
      with (b64_char (sextet1 a) :: b64_char (sextet2 a b)
            :: b64_char (sextet3_last b) :: ["="]%char).
    cbn [forallb]. rewrite (Hchar _ H1), (Hchar _ H2), (Hchar _ H3). reflexivity.
  - destruct (decodable_sextets a b) as (H1 & H2 & _).
    destruct (decodable_sextets b c) as (_ & _ & H3 & _).
    destruct (decodable_sextets c c) as (_ & _ & _ & H4 & _).
    change (list_ascii_of_string (b64encode (a :: b :: c :: data)))
      with (b64_char (sextet1 a) :: b64_char (sextet2 a b) :: b64_char (sextet3 b c)
            :: b64_char (sextet4 c) :: list_ascii_of_string (b64encode data)).
    cbn [forallb]. rewrite (Hchar _ H1), (Hchar _ H2), (Hchar _ H3), (Hchar _ H4), IH.
    reflexivity.
Qed.

(** Decoding what was encoded gives the bytes back. *)
Lemma b64decode_b64encode data : b64decode (JStr (b64encode data)) = Ok data.
Proof.
  unfold b64decode. rewrite b64encode_is_ascii.
  apply (a2b_base64_b64encode data 0%N 0%nat []).
Qed.

(** * Facts about the Baidu client *)

Module BaiduFacts.
Import Baidu.

Lemma cached_token_never_raises key s :
  exists o, fst (cached_token key s) = Ok o.
Proof.
  unfold cached_token, time_time. run.
  repeat branch; eauto.
Qed.

(** The look-up in the cache leaves the client and the log of posts as
    they were. *)
Lemma cached_token_frame key s :
  self (snd (cached_token key s)) = self s /\
  sent (world (snd (cached_token key s))) = sent (world s) /\
  clock (world (snd (cached_token key s))) = clock (world s) /\
  peer (world (snd (cached_token key s))) = peer (world s).
Proof.
  unfold cached_token, time_time. run.
  repeat branch; auto.
Qed.

Lemma cached_token_some key s token :
  fst (cached_token key s) = Ok (Some token) ->
  cache_tokens (self s) = true /\
  _tokens (self s) !! key = Some token /\
  exists expiry, _token_expiry (self s) !! key = Some expiry /\
                 (clock (world s) (reads (world s)) < expiry)%Q.
Proof.
  unfold cached_token, time_time. run. intros H.
  destruct (cache_tokens (self s)); [|discriminate].
  destruct (_tokens (self s) !! key) as [t|] eqn:Ht; [|discriminate].
  destruct (_token_expiry (self s) !! key) as [e|] eqn:He; [|discriminate].
  simpl in H.
  destruct (Qltb (clock (world s) (reads (world s))) e) eqn:Hlt; [|discriminate].
  injection H as ->. repeat split; auto.
  exists e. split; [reflexivity|]. apply Qltb_lt, Hlt.
Qed.


Lemma cached_token_expired key s expiry :
  _token_expiry (self s) !! key = Some expiry ->
  (expiry <= clock (world s) (reads (world s)))%Q ->
  fst (cached_token key s) = Ok None.
Proof.
  intros He Hle.
  assert (Qltb (clock (world s) (reads (world s))) expiry = false) as Hb.
  { destruct (Qltb _ expiry) eqn:Hb; [|reflexivity].
    apply Qltb_lt in Hb. exfalso. exact (Qlt_not_le _ _ Hb Hle). }
  unfold cached_token, time_time. run.
  rewrite He. repeat branch; try reflexivity; congruence.
Qed.

(** ** The members the class does not have *)

(** A look-up in the table of endpoints under a name that is not a member
    raises, whatever the client holds. *)
Lemma endpoint_at_raises c attr :
  member attr = Raise AttributeError ->
  endpoint_at c attr = Raise AttributeError.
Proof.
  intros Hattr. unfold endpoint_at. rewrite Hattr.
  destruct (endpoints c); reflexivity.
Qed.

(** The exchange stops at line 136: it raises before the post, and leaves
    the state as it found it. *)
Lemma fetch_token_raises service s :
  fetch_token service s = (Raise AttributeError, s).
Proof.
  unfold fetch_token, bind, get, lift.
  rewrite (endpoint_at_raises (self s) "TOKEN" eq_refl). reflexivity.
Qed.

Lemma get_access_token_eq service s :
  get_access_token service s =
  match cached_token (cache_key_of service) s with
  | (Ok (Some token), s') => (Ok token, s')
  | (Ok None, s') => fetch_token service s'
  | (Raise e, s') => (Raise e, s')
  end.
Proof.
  unfold get_access_token, bind.
  destruct (cached_token (cache_key_of service) s) as [[[token|]|e] s']; reflexivity.
Qed.

(** A call is served from the cache or raises [AttributeError]. *)
Lemma get_access_token_outcome service s :
  get_access_token service s =
  (match fst (cached_token (cache_key_of service) s) with
   | Ok (Some token) => Ok token
   | _ => Raise AttributeError
   end,
   snd (cached_token (cache_key_of service) s)).
Proof.
  rewrite get_access_token_eq.
  destruct (cached_token_never_raises (cache_key_of service) s) as [o Ho].
  destruct (cached_token (cache_key_of service) s) as [r s']. simpl in *. subst r.
  destruct o as [token|]; [reflexivity | apply fetch_token_raises].
Qed.

(** A call makes no post and leaves the client as it was. *)
Lemma get_access_token_frame service s :
  self (snd (get_access_token service s)) = self s /\
  sent (world (snd (get_access_token service s))) = sent (world s).
Proof.
  rewrite get_access_token_outcome. simpl.
  destruct (cached_token_frame (cache_key_of service) s) as (Hself & Hsent & _). auto.
Qed.

(** A token that is returned was found in the cache, with the clock below
    its expiry. *)
Lemma get_access_token_ok service s token :
  fst (get_access_token service s) = Ok token ->
  fst (cached_token (cache_key_of service) s) = Ok (Some token).
Proof.
  rewrite get_access_token_outcome. simpl.
  destruct (fst (cached_token (cache_key_of service) s)) as [[cached|]|e];
    intros H; simplify_eq/=; reflexivity.
Qed.



(** Without a valid entry, the call raises at line 136. *)
Lemma get_access_token_miss service s :
  fst (cached_token (cache_key_of service) s) = Ok None ->
  fst (get_access_token service s) = Raise AttributeError.
Proof.
  intros Hmiss. rewrite get_access_token_outcome. simpl. rewrite Hmiss. reflexivity.
Qed.

(** C2. What the code does about expired entries.
    (1) A token that is returned was found in the cache with the clock
        strictly below its recorded expiry: an expired token is not served.
    (2) Once the clock has reached the recorded expiry, the call does not
        exchange anything: it raises [AttributeError] at the look-up of
        [BaiduAIService.TOKEN], makes no post, and leaves the client, and
        so the expired entry, as it was. *)
Theorem expired_entry_raises_before_any_post service s :
  let r := get_access_token service s in
  let key := cache_key_of service in
  (forall token,
      fst r = Ok token ->
      _tokens (self s) !! key = Some token /\
      exists expiry, _token_expiry (self s) !! key = Some expiry /\
                     (clock (world s) (reads (world s)) < expiry)%Q) /\
  (forall expiry,
      _token_expiry (self s) !! key = Some expiry ->
      (expiry <= clock (world s) (reads (world s)))%Q ->
      fst r = Raise AttributeError /\
      sent (world (snd r)) = sent (world s) /\
      self (snd r) = self s).
Proof.
  intros r key. subst r key. split.
  - intros token Hok.
    destruct (cached_token_some _ _ _ (get_access_token_ok service s token Hok)) as (_ & Ht & He).
    auto.
  - intros expiry He Hle.
    destruct (get_access_token_frame service s) as [Hself Hsent].
    split; [|split; assumption].
    apply get_access_token_miss, (cached_token_expired _ _ expiry); assumption.
Qed.

(** The client that holds ["T1"] until 4300, asked at 4300, with a peer
    that would answer every post: the call raises and nothing is posted. *)
Lemma expired_entry_raises_before_any_post_witness :
  let r := get_access_token (Some OCR) {| world := world_T1_at 4300; self := holding_T1 |} in
  fst r = Raise AttributeError /\
  sent (world (snd r)) = [] /\
  self (snd r) = holding_T1.
Proof.
  apply (proj2 (expired_entry_raises_before_any_post (Some OCR)
                  {| world := world_T1_at 4300; self := holding_T1 |}) 4300%Q).
  - reflexivity.
  - vm_compute. discriminate.
Defined.

(** The arithmetic of line 152, which no call reaches: an hour from 1000
    with the margin taken off, and a lifetime no float can hold. *)
Example expiry_after_an_hour :
  expiry_after 1000 (JInt 3600) = Ok (1000 + inject_Z 3600 - 300)%Q /\
  expiry_after 1000 (JInt (10 ^ 400)) = Raise OverflowError.
Proof. split; vm_compute; reflexivity. Qed.

(** ** The error envelopes *)

Lemma ocr_result_envelope label fields code :
  dict_get "error_code" fields = Some code ->
  ocr_result label (JObj fields) =
  Raise (ValueError (label +:+ " " +:+ py_str code +:+ ": " +:+
                     py_str (default (JStr "未知错误") (dict_get "error_msg" fields)))).
Proof.
  intros Hc. unfold ocr_result, rbind. simpl. rewrite Hc.
  destruct (dict_get "error_msg" fields); reflexivity.
Qed.

(** C3, as the code has it. The treatment of a decoded response turns
    an error envelope [{error_code, error_msg}] of an OCR call into a
    [ValueError] whose message has the code and the message in it, and an
    error envelope [{error, error_description}] of the token endpoint into
    a [ValueError] whose message is a fixed prefix followed by the
    description: the description is in it, and any two envelopes with the
    same description give the same failure, whatever their [error]. *)
Theorem error_envelopes_surface_as_value_errors :
  (forall label fields code message,
      dict_get "error_code" fields = Some code ->
      dict_get "error_msg" fields = Some message ->
      carries_both (ocr_result label (JObj fields)) code message) /\
  (forall fields description,
      is_Some (dict_get "error" fields) ->
      dict_get "error_description" fields = Some description ->
      token_fields (JObj fields)
        = Raise (ValueError ("百度AI错误: " +:+ py_str description)) /\
      occurs (py_str description) ("百度AI错误: " +:+ py_str description) = true).
Proof.
  split.
  - intros label fields code message Hc Hm.
    rewrite (ocr_result_envelope label fields code Hc), Hm. simpl.
    eexists. split; [reflexivity|]. split.
    + rewrite <- (append_assoc label " "). apply occurs_app.
    + rewrite <- (append_assoc (py_str code) ": "), <- (append_assoc " "),
        <- (append_assoc label). apply occurs_suffix.
  - intros fields description [code Hc] Hd.
    split; [|apply occurs_suffix].
    unfold token_fields, rbind. simpl. rewrite Hc, Hd. reflexivity.
Qed.

Lemma error_envelopes_surface_as_value_errors_witness :
  carries_both
    (ocr_result "OCR错误"
       (JObj [("error_code", JInt 110);
              ("error_msg", JStr "Access token invalid or no longer valid")]))
    (JInt 110) (JStr "Access token invalid or no longer valid") /\
  token_fields (JObj [("error", JStr "invalid_client");
                      ("error_description", JStr "unknown client id")])
    = Raise (ValueError "百度AI错误: unknown client id").
Proof.
  split.
  - apply (proj1 error_envelopes_surface_as_value_errors "OCR错误"
             [("error_code", JInt 110);
              ("error_msg", JStr "Access token invalid or no longer valid")]);
      reflexivity.
  - apply (proj2 error_envelopes_surface_as_value_errors
             [("error", JStr "invalid_client");
              ("error_description", JStr "unknown client id")]
             (JStr "unknown client id")).
    + exists (JStr "invalid_client"). reflexivity.
    + reflexivity.
Defined.

(** C3 as stated fails on the envelope of the token endpoint: the failure
    raised for [{error: 'invalid_client', error_description: 'unknown client
    id'}] does not have the code [invalid_client] in it. *)
Lemma token_error_code_is_dropped :
  let r := token_fields (JObj [("error", JStr "invalid_client");
                               ("error_description", JStr "unknown client id")]) in
  r = Raise (ValueError "百度AI错误: unknown client id") /\
  ~ carries_both r (JStr "invalid_client") (JStr "unknown client id").
Proof.
  split; [reflexivity|].
  intros (msg & Hr & Hcode & _).
  vm_compute in Hr. injection Hr as <-.
  vm_compute in Hcode. discriminate.
Qed.

(** ** The extraction of the words *)


Lemma collect_words_present items found words :
  Forall2 (fun item w => exists fields, item = JObj fields /\
                                        dict_get "words" fields = Some w) items found ->
  collect_words items words = Ok (words ++ found)%list.
Proof.
  intros H. revert words.
  induction H as [|item w items found (fields & -> & Hw) _ IH]; intros words; simpl.
  - rewrite app_nil_r. reflexivity.
  - unfold rbind. simpl. rewrite Hw, IH, <- app_assoc. reflexivity.
Qed.

(** C8. On a payload without [error_code] whose [words_result] is an
    array of objects that each have a [words] field, the extraction gives
    the values of those fields, one per element and in the order of the
    array; and the payload with the words 你好 and 世界 yields exactly
    these two, in this order. *)
Theorem ocr_words_in_order :
  (forall label fields items words,
      dict_get "error_code" fields = None ->
      dict_get "words_result" fields = Some (JArr items) ->
      Forall2 (fun item w => exists item_fields, item = JObj item_fields /\
                                                 dict_get "words" item_fields = Some w)
              items words ->
      ocr_result label (JObj fields) = Ok words) /\
  ocr_result "OCR错误"
    (JObj [("words_result", JArr [JObj [("words", JStr "你好")];
                                  JObj [("words", JStr "世界")]])])
    = Ok [JStr "你好"; JStr "世界"].
Proof.
  split.
  - intros label fields items words Hc Hw Hall.
    unfold ocr_result, rbind. simpl. rewrite Hc, Hw. simpl.
    apply (collect_words_present items words []), Hall.
  - reflexivity.
Qed.

Lemma ocr_words_in_order_witness :
  ocr_result "OCR高精度错误"
    (JObj [("log_id", JInt 7);
           ("words_result", JArr [JObj [("words", JStr "你好")];
                                  JObj [("words", JStr "世界"); ("location", JNull)]])])
    = Ok [JStr "你好"; JStr "世界"].
Proof.
  apply (proj1 ocr_words_in_order "OCR高精度错误" _
           [JObj [("words", JStr "你好")]; JObj [("words", JStr "世界"); ("location", JNull)]]).
  - reflexivity.
  - reflexivity.
  - repeat constructor; eexists; split; reflexivity.
Defined.




(** ** Further properties of the token cache *)

(** X12. A call of [get_access_token] never posts and never changes the
    client: it returns the token cached for the scope, found with the clock
    below its expiry, or it raises [AttributeError]. *)
Theorem token_call_never_posts service s :
  let r := get_access_token service s in
  let key := cache_key_of service in
  sent (world (snd r)) = sent (world s) /\
  self (snd r) = self s /\
  (fst r = Raise AttributeError \/
   exists token expiry,
     fst r = Ok token /\
     cache_tokens (self s) = true /\
     _tokens (self s) !! key = Some token /\
     _token_expiry (self s) !! key = Some expiry /\
     (clock (world s) (reads (world s)) < expiry)%Q).
Proof.
  intros r key. subst r key.
  destruct (get_access_token_frame service s) as [Hself Hsent].
  split; [assumption | split; [assumption|]].
  pose proof (cached_token_some (cache_key_of service) s) as Hsome.
  rewrite get_access_token_outcome. simpl.
  destruct (fst (cached_token (cache_key_of service) s)) as [[token|]|e]; auto.
  right. destruct (Hsome token eq_refl) as (Hc & Ht & expiry & He & Hlt).
  exists token, expiry. auto.
Qed.

(** With caching off nothing is served, and with a peer that would answer
    every post nothing is asked. *)
Example call_without_cache :
  let c := {| api_key := JStr "key"; secret_key := JStr "secret"; proxy := JNull;
              cache_tokens := false;
              _tokens := {["tts" := JStr "T1"]}; _token_expiry := {["tts" := 4300%Q]};
              endpoints := None |} in
  get_access_token (Some TTS) {| world := world_T1_at 1000; self := c |}
    = (Raise AttributeError, {| world := world_T1_at 1000; self := c |}).
Proof. reflexivity. Qed.

(** X13. The constructor never returns a client: whatever the arguments
    and the environment, it raises [AttributeError], at the second key of
    the table of endpoints. *)
Theorem constructor_always_raises api_key secret_key proxy cache_tokens env :
  init api_key secret_key proxy cache_tokens env = Raise AttributeError /\
  member "TTS" = Ok TTS /\
  member "OCR_GENERAL" = Raise AttributeError.
Proof. repeat split. Qed.

Lemma cache_key_of_inj a b : cache_key_of a = cache_key_of b -> a = b.
Proof.
  destruct a as [[]|], b as [[]|]; simpl; intros H; first [reflexivity | discriminate H].
Qed.

(** X14. Scopes do not share cache entries: the keys of two different
    scopes (the five services and the default) differ, and what a call for
    one scope returns or raises is the same after an entry has been written
    for another scope. *)
Theorem scopes_are_cached_apart service other s token expiry :
  service <> other ->
  let written :=
    snd ((store_token (cache_key_of other) token ;;;
          store_expiry (cache_key_of other) expiry) s) in
  cache_key_of service <> cache_key_of other /\
  fst (get_access_token service written) = fst (get_access_token service s).
Proof.
  intros Hne written.
  assert (cache_key_of other <> cache_key_of service) as Hkey.
  { intros H. apply Hne. symmetry. apply cache_key_of_inj, H. }
  split; [congruence|].
  rewrite !get_access_token_outcome. subst written.
  unfold cached_token, store_token, store_expiry, time_time; run.
  rewrite !lookup_insert_ne by exact Hkey.
  repeat branch; simplify_eq/=; reflexivity.
Qed.

(** An entry written for the OCR scope serves the OCR scope and leaves a
    call for the TTS scope without a token. *)
Lemma scopes_are_cached_apart_witness :
  let s := {| world := world_T1_at 1000; self := client_holding ∅ ∅ |} in
  let written := snd ((store_token "ocr" (JStr "T1") ;;; store_expiry "ocr" 4300%Q) s) in
  fst (get_access_token (Some TTS) written) = Raise AttributeError /\
  fst (get_access_token (Some OCR) written) = Ok (JStr "T1").
Proof.
  intros s written. split; [|reflexivity].
  destruct (scopes_are_cached_apart (Some TTS) (Some OCR) s (JStr "T1") 4300%Q) as [_ Hsame].
  - discriminate.
  - exact Hsame.
Defined.

(** ** The other operations *)

(** X16. [test_connection] never raises, never posts and leaves the
    client as it was: it returns [False] when the call for the default
    scope raises, which it does unless the cache holds a valid entry for
    that scope, and the truth value of the cached token otherwise. *)
Theorem test_connection_never_raises s :
  let r := test_connection s in
  (exists ok, fst r = Ok ok) /\
  (forall e, fst (get_access_token None s) = Raise e -> fst r = Ok false) /\
  (forall token, fst (get_access_token None s) = Ok token -> fst r = Ok (truthy token)) /\
  (fst (cached_token "default" s) = Ok None -> fst r = Ok false) /\
  sent (world (snd r)) = sent (world s) /\
  self (snd r) = self s.
Proof.
  intros r. subst r.
  assert (snd (test_connection s) = snd (get_access_token None s)) as Hstate.
  { unfold test_connection, try_except, bind, ret.
    destruct (get_access_token None s) as [[token|e] s1]; reflexivity. }
  assert (fst (test_connection s)
          = Ok (match fst (get_access_token None s) with
                | Ok token => truthy token
                | Raise _ => false
                end)) as Hvalue.
  { unfold test_connection, try_except, bind, ret.
    destruct (get_access_token None s) as [[token|e] s1]; reflexivity. }
  destruct (get_access_token_frame None s) as [Hself Hsent].
  rewrite Hstate, Hvalue. repeat split; try assumption.
  - eauto.
  - intros e He. rewrite He. reflexivity.
  - intros token Ht. rewrite Ht. reflexivity.
  - intros Hmiss. rewrite (get_access_token_miss None s Hmiss). reflexivity.
Qed.

(** With an empty cache the answer is [False], although the peer would
    hand out a token; with a token cached for the default scope it is
    [True]. *)
Lemma test_connection_never_raises_witness :
  fst (test_connection {| world := world_T1_at 1000; self := client_holding ∅ ∅ |}) = Ok false /\
  fst (test_connection
         {| world := world_T1_at 1000;
            self := client_holding {["default" := JStr "T0"]} {["default" := 4300%Q]} |})
    = Ok true.
Proof.
  split.
  - apply (proj1 (proj2 (proj2 (proj2 (test_connection_never_raises _))))).
    reflexivity.
  - apply (proj1 (proj2 (proj2 (test_connection_never_raises _))) (JStr "T0")).
    reflexivity.
Defined.

(** X17. The image bytes come back exactly: on a response without
    [error_code] whose [data.image] is the base64 text of some bytes, the
    extraction of [wenxin_image_generate] returns these bytes. *)
Theorem generated_image_round_trip fields inner image :
  dict_get "error_code" fields = None ->
  dict_get "data" fields = Some (JObj inner) ->
  dict_get "image" inner = Some (JStr (b64encode image)) ->
  wenxin_result (JObj fields) = Ok image.
Proof.
  intros Hcode Hdata Himage.
  unfold wenxin_result, rbind. simpl. rewrite Hcode, Hdata. simpl. rewrite Himage.
  apply b64decode_b64encode.
Qed.

Lemma generated_image_round_trip_witness :
  wenxin_result (image_payload (list_ascii_of_string "not really a PNG"))
    = Ok (list_ascii_of_string "not really a PNG").
Proof.
  apply (generated_image_round_trip _
           [("image", JStr (b64encode (list_ascii_of_string "not really a PNG")))]);
    reflexivity.
Defined.

(** X18. The extraction of [wenxin_image_generate] on a response without
    an image: an error envelope comes out as a [ValueError] with the code
    and the message; an object with neither [error_code] nor [data], or
    whose [data] is an object without [image], as the [ValueError] of a
    malformed response. No bytes are returned in these cases. *)
Theorem response_without_image_is_an_error fields :
  (forall code, dict_get "error_code" fields = Some code ->
      wenxin_result (JObj fields)
        = Raise (ValueError ("文心一格错误 " +:+ py_str code +:+ ": " +:+
                             py_str (default (JStr "未知错误") (dict_get "error_msg" fields))))) /\
  (dict_get "error_code" fields = None ->
   dict_get "data" fields = None \/
   (exists inner, dict_get "data" fields = Some (JObj inner) /\
                  dict_get "image" inner = None) ->
   wenxin_result (JObj fields) = Raise (ValueError "文心一格响应格式错误")).
Proof.
  split.
  - intros code Hcode. unfold wenxin_result, rbind. simpl. rewrite Hcode.
    destruct (dict_get "error_msg" fields); reflexivity.
  - intros Hcode [Hdata | (inner & Hdata & Himage)];
      unfold wenxin_result, rbind; simpl; rewrite Hcode, Hdata; simpl.
    + reflexivity.
    + rewrite Himage. reflexivity.
Qed.

Lemma response_without_image_is_an_error_witness :
  wenxin_result (JObj [("log_id", JInt 1); ("data", JObj [("task_id", JInt 7)])])
    = Raise (ValueError "文心一格响应格式错误").
Proof.
  apply (proj2 (response_without_image_is_an_error _)).
  - reflexivity.
  - right. exists [("task_id", JInt 7)]. split; reflexivity.
Defined.

(** X19. The treatment of the response of [text_to_speech] tells audio
    from an error by the content type alone: when the header does not start
    with [application/json] it gives the content of the response, byte for
    byte, with the text that was sent, whatever the status; when it does,
    it raises a [ValueError] with the [err_msg] of the body and gives no
    audio. *)
Theorem speech_is_audio_or_error response text :
  (String.prefix "application/json" (default "" (content_type response)) = false ->
   tts_result response text = Ok (content response, text)) /\
  (String.prefix "application/json" (default "" (content_type response)) = true ->
   forall fields,
     error_body response = Ok (JObj fields) ->
     tts_result response text
       = Raise (ValueError ("TTS错误: " +:+
                            py_str (default (JStr "未知错误") (dict_get "err_msg" fields))))).
Proof.
  unfold tts_result, rbind. split.
  - intros Hct. rewrite Hct. reflexivity.
  - intros Hct fields Hbody. rewrite Hct, Hbody. simpl.
    destruct (dict_get "err_msg" fields); reflexivity.
Qed.

(** A response with the content type [application/json; charset=utf-8]
    and the body [{err_no: 502, err_msg: 'token expired'}], and a response
    with the content type [audio/mp3]. *)
Lemma speech_is_audio_or_error_witness :
  tts_result {| content_type := Some "application/json; charset=utf-8";
                content := [];
                error_body := Ok (JObj [("err_no", JInt 502);
                                        ("err_msg", JStr "token expired")]) |} "你好"
    = Raise (ValueError "TTS错误: token expired") /\
  tts_result {| content_type := Some "audio/mp3";
                content := list_ascii_of_string "ID3";
                error_body := Raise JSONDecodeError |} "你好"
    = Ok (list_ascii_of_string "ID3", "你好").
Proof.
  split.
  - exact (proj2 (speech_is_audio_or_error
                    {| content_type := Some "application/json; charset=utf-8";
                       content := [];
                       error_body := Ok (JObj [("err_no", JInt 502);
                                               ("err_msg", JStr "token expired")]) |} "你好")
             eq_refl [("err_no", JInt 502); ("err_msg", JStr "token expired")] eq_refl).
  - exact (proj1 (speech_is_audio_or_error
                    {| content_type := Some "audio/mp3";
                       content := list_ascii_of_string "ID3";
                       error_body := Raise JSONDecodeError |} "你好")
             eq_refl).
Defined.

(** X20. No OCR call posts anything: [ocr_general] and [ocr_accurate]
    raise [AttributeError], at line 136 when the token is not served from
    the cache and at the look-up of their own endpoint otherwise, and leave
    the log of posts and the client as they were. *)
Theorem ocr_calls_raise_before_posting config s :
  (fst (ocr_general config s) = Raise AttributeError /\
   sent (world (snd (ocr_general config s))) = sent (world s) /\
   self (snd (ocr_general config s)) = self s) /\
  (fst (ocr_accurate config s) = Raise AttributeError /\
   sent (world (snd (ocr_accurate config s))) = sent (world s) /\
   self (snd (ocr_accurate config s)) = self s).
Proof.
  assert (forall attr label, member attr = Raise AttributeError ->
            fst (ocr_call attr label config s) = Raise AttributeError /\
            sent (world (snd (ocr_call attr label config s))) = sent (world s) /\
            self (snd (ocr_call attr label config s)) = self s) as Hcall.
  { intros attr label Hattr.
    destruct (get_access_token_frame (Some OCR) s) as [Hself Hsent].
    unfold ocr_call, bind, get, lift.
    rewrite get_access_token_outcome in *. simpl in *.
    destruct (fst (cached_token "ocr" s)) as [[token|]|e]; simpl; auto.
    rewrite (endpoint_at_raises _ attr Hattr). simpl. auto. }
  split; apply Hcall; reflexivity.
Qed.

(** The client that holds a valid token for the OCR scope, with a peer
    that would answer: the token is served and the call raises all the
    same, at the look-up of [BaiduAIService.OCR_GENERAL]. *)
Example ocr_call_with_a_token :
  fst (get_access_token (Some OCR) {| world := world_T1_at 1000; self := holding_T1 |})
    = Ok (JStr "T1") /\
  fst (ocr_general no_image {| world := world_T1_at 1000; self := holding_T1 |})
    = Raise AttributeError /\
  sent (world (snd (ocr_general no_image {| world := world_T1_at 1000; self := holding_T1 |})))
    = [].
Proof. repeat split. Qed.

End BaiduFacts.

(** * Facts about the speech recognizer *)

Module ASRFacts.
Import ASR.

(** The two recognition methods return a result whatever the engines do;
    each logs its call and leaves the files alone. *)
Lemma recognize_with_google_returns self audio_path w :
  exists r w', recognize_with_google self audio_path w = (Ok r, w') /\
               calls w' = CallGoogle audio_path :: calls w /\
               files w' = files w.
Proof.
  unfold recognize_with_google, log, time_time. run.
  destruct (speech_api w audio_path _ _); simpl; eauto.
Qed.

Lemma recognize_with_vosk_returns self audio_path w :
  exists r w', recognize_with_vosk self audio_path w = (Ok r, w') /\
               calls w' = CallVosk audio_path :: calls w /\
               files w' = files w.
Proof.
  unfold recognize_with_vosk, log, time_time. run.
  destruct (vosk_model self); simpl; eauto.
  destruct (vosk_engine w audio_path); simpl; eauto.
Qed.

(** The removal after use cannot fail: it is tried on an existing path
    only. *)
Lemma cleanup_returns is_temp path w :
  exists w', cleanup is_temp path w = (Ok tt, w') /\
             calls w' = calls w /\
             files w' = (if is_temp then files w ∖ {[path]} else files w).
Proof.
  unfold cleanup, os_path_exists, os_remove. run.
  destruct is_temp; simpl; [|eauto].
  destruct (bool_decide (path ∈ files w)) eqn:Hin; simpl.
  - rewrite Hin. eexists. split; [reflexivity|]. split; reflexivity.
  - exists w. repeat split. apply bool_decide_eq_false in Hin.
    symmetry. apply difference_disjoint_L. set_solver.
Qed.

Lemma conversion_frame self audio_path w :
  calls (snd (conversion self audio_path w)) = calls w.
Proof.
  unfold conversion, convert_audio_format, NamedTemporaryFile, subprocess_run. run.
  repeat branch; simplify_eq/=; reflexivity.
Qed.

(** C4. In hybrid mode, on an existing file, with [converted_path] the
    path the conversion step hands on and [google_result] what the cloud
    method returns for it: when that result has an error or an empty text,
    the offline method is called once, on the same [converted_path], and
    what it returns, whatever it is, is the final result (the very object,
    its [mode] set to [HYBRID]); otherwise the cloud result is the final
    result and the offline method is not called. *)
Theorem hybrid_falls_back_to_vosk_once
    self audio_path w converted_path is_temp w1 google_result w2 :
  ASRConfig.mode (config self) = HYBRID ->
  audio_path ∈ files w ->
  conversion self audio_path w = (Ok (converted_path, is_temp), w1) ->
  recognize_with_google self converted_path w1 = (Ok google_result, w2) ->
  let final := recognize_audio self audio_path w in
  (cloud_failed google_result = true ->
     exists vosk_result w3,
       recognize_with_vosk self converted_path w2 = (Ok vosk_result, w3) /\
       fst final = Ok (with_mode HYBRID vosk_result) /\
       calls (snd final) = CallVosk converted_path :: CallGoogle converted_path :: calls w) /\
  (cloud_failed google_result = false ->
     fst final = Ok (with_mode HYBRID google_result) /\
     calls (snd final) = CallGoogle converted_path :: calls w).
Proof.
  intros Hmode Hin Hconv Hgoogle final.
  pose proof (conversion_frame self audio_path w) as Hcalls1.
  rewrite Hconv in Hcalls1. simpl in Hcalls1.
  destruct (recognize_with_google_returns self converted_path w1)
    as (g & w2' & Hg & Hcalls2 & _).
  rewrite Hgoogle in Hg. injection Hg as <- <-.
  assert (final = recognize_audio self audio_path w) as Hfinal by reflexivity.
  unfold recognize_audio, os_path_exists, bind, try_except, ret in Hfinal.
  rewrite (bool_decide_eq_true_2 _ Hin) in Hfinal.
  cbn beta iota zeta delta [fst snd negb] in Hfinal.
  rewrite Hconv, Hmode in Hfinal.
  cbn beta iota zeta delta [fst snd negb] in Hfinal.
  rewrite Hgoogle in Hfinal.
  split; intros Hfailed; rewrite Hfailed in Hfinal.
  - destruct (recognize_with_vosk_returns self converted_path w2)
      as (v & w3 & Hv & Hcalls3 & _).
    rewrite Hv in Hfinal.
    destruct (cleanup_returns is_temp converted_path w3) as (w4 & Hclean & Hcalls4 & _).
    rewrite Hclean in Hfinal.
    exists v, w3. rewrite Hfinal. simpl. split; [exact Hv|]. split; [reflexivity|].
    congruence.
  - destruct (cleanup_returns is_temp converted_path w2) as (w4 & Hclean & Hcalls4 & _).
    rewrite Hclean in Hfinal.
    rewrite Hfinal. simpl. split; [reflexivity | congruence].
Qed.

(** The cloud engine cannot make out the audio, no Vosk model is loaded:
    the offline method is called once on the converted file and its
    empty text with an error is the final result. *)
Lemma hybrid_falls_back_to_vosk_once_witness :
  let final := recognize_audio default_recognizer "voice.ogg"
                 (studio (Ok tt) UnknownValueError) in
  exists vosk_result,
    fst final = Ok (with_mode HYBRID vosk_result) /\
    text vosk_result = "" /\
    error vosk_result = Some "Vosk模型未加载" /\
    calls (snd final) = [CallVosk "/tmp/tmp0.wav"; CallGoogle "/tmp/tmp0.wav"].
Proof.
  intros final.
  destruct (hybrid_falls_back_to_vosk_once default_recognizer "voice.ogg"
              (studio (Ok tt) UnknownValueError) "/tmp/tmp0.wav" true
              (snd (conversion default_recognizer "voice.ogg" (studio (Ok tt) UnknownValueError)))
              (match fst (recognize_with_google default_recognizer "/tmp/tmp0.wav"
                            (snd (conversion default_recognizer "voice.ogg"
                                    (studio (Ok tt) UnknownValueError)))) with
               | Ok r => r
               | Raise _ => with_mode HYBRID
                              {| text := ""; confidence := 0; mode := GOOGLE;
                                 processing_time := 0; language := ""; error := None |}
               end)
              (snd (recognize_with_google default_recognizer "/tmp/tmp0.wav"
                      (snd (conversion default_recognizer "voice.ogg"
                              (studio (Ok tt) UnknownValueError))))))
    as [Hfallback _].
  - reflexivity.
  - simpl. set_solver.
  - reflexivity.
  - reflexivity.
  - destruct (Hfallback eq_refl) as (v & w3 & Hv & Hres & Hcalls).
    exists v. split; [exact Hres|].
    injection Hv as <- _. split; [reflexivity|]. split; [reflexivity | exact Hcalls].
Defined.

(** ** Failures of the transcoding *)

Lemma convert_audio_format_absorbs self input_path output_format w failure msg :
  failure = CalledProcessError msg \/ failure = FileNotFoundError msg ->
  run w (convert_cmd self input_path (tempname w (created w) ("." +:+ output_format)))
    = Raise failure ->
  fst (convert_audio_format self input_path output_format w) = Ok input_path.
Proof.
  intros Hfailure Hrun.
  unfold convert_audio_format, NamedTemporaryFile, subprocess_run, bind, get, try_except, ret.
  destruct (_ && _); [reflexivity|].
  cbn beta iota zeta delta [ASR.run tempname created]. rewrite Hrun.
  destruct Hfailure as [-> | ->]; reflexivity.
Qed.

(** C6, as the code has it. ffmpeg is run with [check=True], and the
    exception of a non-zero exit or of a missing tool is caught inside the
    method that ran it: [convert_audio_format] returns the path of the
    original file; [recognize_dingtalk_voice] goes on to recognize the
    original file after a non-zero exit, and returns a result with an empty
    text and an error after a missing tool. *)
Theorem transcoding_failure_is_absorbed self w :
  (forall input_path output_format failure msg,
      failure = CalledProcessError msg \/ failure = FileNotFoundError msg ->
      run w (convert_cmd self input_path (tempname w (created w) ("." +:+ output_format)))
        = Raise failure ->
      fst (convert_audio_format self input_path output_format w) = Ok input_path) /\
  (forall ogg_path msg,
      run w (dingtalk_cmd ogg_path (tempname w (created w) ".wav"))
        = Raise (CalledProcessError msg) ->
      recognize_dingtalk_voice self ogg_path w
        = recognize_audio self ogg_path (snd (NamedTemporaryFile ".wav" w))) /\
  (forall ogg_path msg,
      run w (dingtalk_cmd ogg_path (tempname w (created w) ".wav"))
        = Raise (FileNotFoundError msg) ->
      exists r, fst (recognize_dingtalk_voice self ogg_path w) = Ok r /\
                text r = "" /\
                error r = Some ("钉钉语音处理失败: " +:+ msg)).
Proof.
  split; [|split].
  - intros input_path output_format failure msg.
    apply convert_audio_format_absorbs.
  - intros ogg_path msg Hrun.
    unfold recognize_dingtalk_voice, NamedTemporaryFile, subprocess_run, bind, try_except.
    cbn beta iota zeta delta [ASR.run tempname created]. rewrite Hrun. reflexivity.
  - intros ogg_path msg Hrun.
    unfold recognize_dingtalk_voice, NamedTemporaryFile, subprocess_run, bind, try_except,
      os_path_exists, os_remove, ret.
    cbn beta iota zeta delta [ASR.run tempname created]. rewrite Hrun.
    cbn beta iota zeta delta [files].
    rewrite bool_decide_eq_true_2 by set_solver.
    rewrite bool_decide_eq_true_2 by set_solver.
    eexists. split; [reflexivity|]. split; reflexivity.
Qed.

Lemma transcoding_failure_is_absorbed_witness :
  fst (convert_audio_format default_recognizer "voice.ogg" "wav"
         (studio exit_status_1 UnknownValueError)) = Ok "voice.ogg" /\
  fst (convert_audio_format default_recognizer "voice.ogg" "wav"
         (studio no_ffmpeg UnknownValueError)) = Ok "voice.ogg".
Proof.
  split.
  - eapply (proj1 (transcoding_failure_is_absorbed default_recognizer
                     (studio exit_status_1 UnknownValueError))).
    + left. reflexivity.
    + reflexivity.
  - eapply (proj1 (transcoding_failure_is_absorbed default_recognizer
                     (studio no_ffmpeg UnknownValueError))).
    + right. reflexivity.
    + reflexivity.
Defined.

(** C6 as stated fails: when ffmpeg exits with a non-zero status,
    [convert_audio_format] raises nothing and returns the path of the
    unconverted file. *)
Lemma failed_conversion_returns_original_file :
  let r := fst (convert_audio_format default_recognizer "voice.ogg" "wav"
                  (studio exit_status_1 UnknownValueError)) in
  r = Ok "voice.ogg" /\ ~ (exists e, r = Raise e).
Proof.
  split; [reflexivity|]. intros [e H]. discriminate H.
Qed.

(** C7 fails on the code. ffmpeg exits with a non-zero status while
    [recognize_audio] converts [voice.ogg]: the call returns a result, and
    the temporary file made for the conversion, which did not exist before,
    still exists afterwards. Through [recognize_dingtalk_voice] two files
    are left behind: the one that method made itself and the one made for
    the conversion. *)
Theorem temporary_file_outlives_failed_conversion :
  let w := studio exit_status_1 (Heard "你好") in
  let final := recognize_audio default_recognizer "voice.ogg" w in
  let dingtalk := recognize_dingtalk_voice default_recognizer "voice.ogg" w in
  (exists r, fst final = Ok r /\ text r = "你好") /\
  files w = {["voice.ogg"]} /\
  files (snd final) = {["/tmp/tmp0.wav"; "voice.ogg"]} /\
  (exists r, fst dingtalk = Ok r /\ text r = "你好") /\
  files (snd dingtalk) = {["/tmp/tmp1.wav"; "/tmp/tmp0.wav"; "voice.ogg"]}.
Proof.
  intros w final dingtalk.
  split; [eexists; split; reflexivity|].
  split; [reflexivity|].
  split; [reflexivity|].
  split; [eexists; split; reflexivity|].
  reflexivity.
Qed.

(** ** Further properties of the recognizer *)

Lemma conversion_files_calls self audio_path w :
  calls (snd (conversion self audio_path w)) = calls w /\
  run (snd (conversion self audio_path w)) = run w /\
  speech_api (snd (conversion self audio_path w)) = speech_api w /\
  vosk_engine (snd (conversion self audio_path w)) = vosk_engine w.
Proof.
  unfold conversion, convert_audio_format, NamedTemporaryFile, subprocess_run. run.
  repeat branch; simplify_eq/=; auto.
Qed.

(** X1. A path that does not exist is reported in the result and nothing
    else happens: no engine is called, no temporary file is made, the world
    is left as it was. *)
Theorem missing_file_is_reported self audio_path w :
  audio_path ∉ files w ->
  exists r,
    recognize_audio self audio_path w = (Ok r, w) /\
    text r = "" /\
    error r = Some ("文件不存在: " +:+ audio_path) /\
    mode r = ASRConfig.mode (config self).
Proof.
  intros Hout. unfold recognize_audio, os_path_exists, bind, ret.
  rewrite (bool_decide_eq_false_2 _ Hout). simpl.
  eexists. split; [reflexivity|]. repeat split.
Qed.

Lemma missing_file_is_reported_witness :
  exists r,
    recognize_audio default_recognizer "absent.ogg" (studio (Ok tt) (Heard "你好"))
      = (Ok r, studio (Ok tt) (Heard "你好")) /\
    text r = "" /\
    error r = Some "文件不存在: absent.ogg".
Proof.
  destruct (missing_file_is_reported default_recognizer "absent.ogg"
              (studio (Ok tt) (Heard "你好"))) as (r & Hr & Ht & He & _).
  - simpl. set_solver.
  - exists r. auto.
Defined.

Lemma recognize_with_google_sound self audio_path w r w' :
  recognize_with_google self audio_path w = (Ok r, w') -> all_or_nothing r.
Proof.
  unfold recognize_with_google, log, time_time, all_or_nothing. run.
  destruct (speech_api w audio_path _ _); intros H; simplify_eq/=; auto.
  intros [x Hx]. discriminate.
Qed.

Lemma recognize_with_vosk_sound self audio_path w r w' :
  recognize_with_vosk self audio_path w = (Ok r, w') -> all_or_nothing r.
Proof.
  unfold recognize_with_vosk, log, time_time, all_or_nothing. run.
  destruct (vosk_model self); simpl; [|intros H; simplify_eq/=; auto].
  destruct (vosk_engine w audio_path); intros H; simplify_eq/=; auto.
  simpl. intros [x Hx]. discriminate.
Qed.

(** The dispatch on the mode returns a result, leaves the files alone and
    logs the calls it makes. *)
Lemma recognize_by_mode_returns self p w :
  exists r w',
    recognize_by_mode self p w = (Ok r, w') /\
    files w' = files w /\
    all_or_nothing r /\
    exists made, calls w' = (made ++ calls w)%list.
Proof.
  unfold recognize_by_mode.
  destruct (recognize_with_google_returns self p w) as (g & wg & Hg & Hcg & Hfg).
  destruct (recognize_with_vosk_returns self p w) as (v & wv & Hv & Hcv & Hfv).
  destruct (ASRConfig.mode (config self)).
  - exists g, wg. split; [exact Hg|]. split; [exact Hfg|]. split.
    + exact (recognize_with_google_sound _ _ _ _ _ Hg).
    + exists [CallGoogle p]. exact Hcg.
  - exists v, wv. split; [exact Hv|]. split; [exact Hfv|]. split.
    + exact (recognize_with_vosk_sound _ _ _ _ _ Hv).
    + exists [CallVosk p]. exact Hcv.
  - unfold bind, ret. rewrite Hg.
    destruct (cloud_failed g).
    + destruct (recognize_with_vosk_returns self p wg) as (v' & wv' & Hv' & Hcv' & Hfv').
      rewrite Hv'. exists (with_mode HYBRID v'), wv'.
      split; [reflexivity|]. split; [congruence|]. split.
      * exact (recognize_with_vosk_sound _ _ _ _ _ Hv').
      * exists [CallVosk p; CallGoogle p]. simpl. congruence.
    + exists (with_mode HYBRID g), wg.
      split; [reflexivity|]. split; [exact Hfg|]. split.
      * exact (recognize_with_google_sound _ _ _ _ _ Hg).
      * exists [CallGoogle p]. exact Hcg.
Qed.

(** [recognize_audio] written with the dispatch on the mode as a step of
    its own. *)
Lemma recognize_audio_steps self audio_path :
  recognize_audio self audio_path =
  (there <- os_path_exists audio_path ;;
   if negb there then
     ret {| text := ""; confidence := 0; mode := ASRConfig.mode (config self);
            processing_time := 0; language := ASRConfig.language (config self);
            error := Some ("文件不存在: " +:+ audio_path) |}
   else
     conv <- conversion self audio_path ;;
     try_except
       (result <- recognize_by_mode self (fst conv) ;;
        cleanup (snd conv) (fst conv) ;;;
        ret result)
       (fun e => Some (cleanup (snd conv) (fst conv) ;;;
                       _ <- time_time ;;
                       raise (NameError "start_time")))).
Proof. reflexivity. Qed.

(** [recognize_audio] on an existing file, once the conversion step has
    handed on a path: the dispatch on the mode, then the removal. *)
Lemma recognize_audio_converted self audio_path w p is_temp w1 :
  audio_path ∈ files w ->
  conversion self audio_path w = (Ok (p, is_temp), w1) ->
  exists r w2 w3,
    recognize_by_mode self p w1 = (Ok r, w2) /\
    cleanup is_temp p w2 = (Ok tt, w3) /\
    recognize_audio self audio_path w = (Ok r, w3).
Proof.
  intros Hin Hconv.
  destruct (recognize_by_mode_returns self p w1) as (r & w2 & Hr & _).
  destruct (cleanup_returns is_temp p w2) as (w3 & Hclean & _).
  exists r, w2, w3. split; [exact Hr|]. split; [exact Hclean|].
  rewrite recognize_audio_steps.
  unfold os_path_exists, bind, try_except, ret.
  rewrite (bool_decide_eq_true_2 _ Hin).
  cbn beta iota zeta delta [fst snd negb].
  rewrite Hconv.
  cbn beta iota zeta delta [fst snd negb].
  rewrite Hr, Hclean. reflexivity.
Qed.

Lemma recognize_audio_conversion_raises self audio_path w e w1 :
  audio_path ∈ files w ->
  conversion self audio_path w = (Raise e, w1) ->
  recognize_audio self audio_path w = (Raise e, w1).
Proof.
  intros Hin Hconv.
  unfold recognize_audio, os_path_exists, bind, try_except, ret.
  rewrite (bool_decide_eq_true_2 _ Hin).
  cbn beta iota zeta delta [fst snd negb].
  rewrite Hconv. reflexivity.
Qed.

(** What [convert_audio_format] comes to, case by case. *)
Lemma convert_audio_format_cases self input_path output_format w :
  let tmp := tempname w (created w) ("." +:+ output_format) in
  let w1 := snd (NamedTemporaryFile ("." +:+ output_format) w) in
  let skipped :=
    (String.eqb (lower_suffix w input_path) ".wav"
     || String.eqb (lower_suffix w input_path) ".flac")
    && negb (ASRConfig.auto_convert_formats (config self)) in
  convert_audio_format self input_path output_format w =
  if skipped then (Ok input_path, w)
  else match run w (convert_cmd self input_path tmp) with
       | Ok _ => (Ok tmp, w1)
       | Raise (CalledProcessError _) => (Ok input_path, w1)
       | Raise (FileNotFoundError _) => (Ok input_path, w1)
       | Raise e => (Raise e, w1)
       end.
Proof.
  intros tmp w1 skipped. subst tmp w1 skipped.
  unfold convert_audio_format, NamedTemporaryFile, subprocess_run, bind, get, try_except, ret.
  destruct (_ && _); [reflexivity|].
  cbn beta iota zeta delta [ASR.run tempname created fst snd].
  destruct (run w _) as [[]|[]]; reflexivity.
Qed.

(** X2. The path [convert_audio_format] returns is either the new
    temporary file, exactly when ffmpeg was run on it and succeeded, and
    the file then exists; or the path it was given. *)
Theorem convert_audio_format_outcome self input_path output_format w p w1 :
  convert_audio_format self input_path output_format w = (Ok p, w1) ->
  let tmp := tempname w (created w) ("." +:+ output_format) in
  (p = tmp /\ run w (convert_cmd self input_path tmp) = Ok tt /\
   files w1 = {[tmp]} ∪ files w) \/
  (p = input_path /\
   (w1 = w \/ (exists e, run w (convert_cmd self input_path tmp) = Raise e) /\
              files w1 = {[tmp]} ∪ files w)).
Proof.
  intros H tmp. subst tmp. rewrite convert_audio_format_cases in H.
  destruct (_ && _).
  - right. injection H as <- <-. auto.
  - destruct (run w _) as [[]|e] eqn:Hrun.
    + left. injection H as <- <-. auto.
    + right. destruct e; simplify_eq/=; split; auto; right; split; eauto.
Qed.

Lemma convert_audio_format_outcome_witness :
  fst (convert_audio_format default_recognizer "voice.ogg" "wav" (studio (Ok tt) UnknownValueError))
    = Ok "/tmp/tmp0.wav" /\
  files (snd (convert_audio_format default_recognizer "voice.ogg" "wav"
                (studio (Ok tt) UnknownValueError)))
    = {["/tmp/tmp0.wav"]} ∪ {["voice.ogg"]}.
Proof.
  destruct (convert_audio_format_outcome default_recognizer "voice.ogg" "wav"
              (studio (Ok tt) UnknownValueError) "/tmp/tmp0.wav"
              (snd (convert_audio_format default_recognizer "voice.ogg" "wav"
                      (studio (Ok tt) UnknownValueError))) eq_refl)
    as [(_ & _ & Hfiles) | (Hp & _)].
  - split; [reflexivity | exact Hfiles].
  - discriminate Hp.
Defined.

Lemma conversion_cases self audio_path w p is_temp w1 :
  conversion self audio_path w = (Ok (p, is_temp), w1) ->
  let tmp := tempname w (created w) ".wav" in
  (ASRConfig.auto_convert_formats (config self) = false /\
   p = audio_path /\ is_temp = false /\ w1 = w) \/
  (ASRConfig.auto_convert_formats (config self) = true /\
   is_temp = negb (String.eqb p audio_path) /\
   calls w1 = calls w /\ files w1 = {[tmp]} ∪ files w /\
   ((p = tmp /\ run w (convert_cmd self audio_path tmp) = Ok tt) \/
    (p = audio_path /\ exists e, run w (convert_cmd self audio_path tmp) = Raise e))).
Proof.
  intros H tmp. subst tmp. unfold conversion in H.
  destruct (ASRConfig.auto_convert_formats (config self)) eqn:Hauto.
  - unfold bind, ret in H. rewrite convert_audio_format_cases, Hauto, andb_false_r in H.
    right. split; [reflexivity|].
    destruct (run w _) as [[]|e] eqn:Hrun.
    + simplify_eq/=. auto 10.
    + destruct e; simplify_eq/=; repeat split; auto; right; split; eauto.
  - unfold ret in H. simplify_eq/=. left. auto.
Qed.

(** Nothing but the temporary-file step and the clock changes what the
    world answers: the engines and ffmpeg stay the same functions. *)
Lemma recognize_by_mode_run self p w r w' :
  recognize_by_mode self p w = (Ok r, w') ->
  run w' = run w /\ tempname w' = tempname w /\ created w' = created w.
Proof.
  unfold recognize_by_mode, recognize_with_google, recognize_with_vosk, log, time_time.
  run. intros H. repeat branch; simplify_eq/=; auto.
Qed.

Lemma cleanup_run is_temp p w w' :
  cleanup is_temp p w = (Ok tt, w') ->
  run w' = run w.
Proof.
  unfold cleanup, os_path_exists, os_remove. run.
  intros H. repeat branch; simplify_eq/=; auto.
Qed.

Lemma recognize_audio_after_conversion self audio_path w :
  ASRConfig.auto_convert_formats (config self) = true ->
  audio_path ∈ files w ->
  tempname w (created w) ".wav" ∉ files w ->
  run w (convert_cmd self audio_path (tempname w (created w) ".wav")) = Ok tt ->
  exists r w',
    recognize_audio self audio_path w = (Ok r, w') /\
    files w' = files w /\
    run w' = run w /\
    all_or_nothing r.
Proof.
  intros Hauto Hin Hfresh Hrun.
  set (tmp := tempname w (created w) ".wav") in *.
  assert (tmp <> audio_path) as Hne by (intros ->; contradiction).
  assert (conversion self audio_path w
          = (Ok (tmp, true), snd (NamedTemporaryFile ".wav" w))) as Hconv.
  { unfold conversion. rewrite Hauto. unfold bind, ret.
    rewrite convert_audio_format_cases, Hauto, andb_false_r.
    change ("." +:+ "wav") with ".wav". fold tmp. rewrite Hrun.
    apply String.eqb_neq in Hne. rewrite Hne. reflexivity. }
  destruct (recognize_audio_converted _ _ _ _ _ _ Hin Hconv)
    as (r & w2 & w3 & Hmode & Hclean & Hfinal).
  destruct (recognize_by_mode_returns self tmp (snd (NamedTemporaryFile ".wav" w)))
    as (r' & w2' & Hmode' & Hfiles2 & Hsound & _).
  rewrite Hmode in Hmode'. injection Hmode' as <- <-.
  destruct (cleanup_returns true tmp w2) as (w3' & Hclean' & _ & Hfiles3).
  rewrite Hclean in Hclean'. injection Hclean' as <-.
  exists r, w3. split; [exact Hfinal|]. split; [|split; [|exact Hsound]].
  - rewrite Hfiles3, Hfiles2. simpl. fold tmp. apply add_remove_fresh, Hfresh.
  - rewrite (cleanup_run true tmp w2 w3 Hclean).
    apply (recognize_by_mode_run _ _ _ _ _ Hmode).
Qed.

(** X3. When the conversion succeeds, [recognize_audio] leaves no file
    behind: it returns a result, and the files that exist afterwards are
    the ones that existed before (the temporary file is a new one). *)
Theorem successful_conversion_leaves_no_file self audio_path w :
  ASRConfig.auto_convert_formats (config self) = true ->
  audio_path ∈ files w ->
  tempname w (created w) ".wav" ∉ files w ->
  run w (convert_cmd self audio_path (tempname w (created w) ".wav")) = Ok tt ->
  exists r w',
    recognize_audio self audio_path w = (Ok r, w') /\
    files w' = files w.
Proof.
  intros Hauto Hin Hfresh Hrun.
  destruct (recognize_audio_after_conversion self audio_path w Hauto Hin Hfresh Hrun)
    as (r & w' & Hr & Hfiles & _).
  eauto.
Qed.

Lemma successful_conversion_leaves_no_file_witness :
  exists r w',
    recognize_audio default_recognizer "voice.ogg" (studio (Ok tt) (Heard "你好")) = (Ok r, w') /\
    files w' = {["voice.ogg"]}.
Proof.
  apply (successful_conversion_leaves_no_file default_recognizer "voice.ogg"
           (studio (Ok tt) (Heard "你好"))).
  - reflexivity.
  - simpl. set_solver.
  - simpl. apply not_elem_of_singleton. discriminate.
  - reflexivity.
Defined.

Lemma missing_file_result self audio_path w :
  audio_path ∉ files w ->
  exists r, recognize_audio self audio_path w = (Ok r, w) /\
            text r = "" /\ confidence r = 0%Q.
Proof.
  intros Hout. unfold recognize_audio, os_path_exists, bind, ret.
  rewrite (bool_decide_eq_false_2 _ Hout). simpl.
  eexists. split; [reflexivity|]. split; reflexivity.
Qed.

#[local] Arguments recognize_audio : simpl never.

Lemma recognize_audio_sound self audio_path w r w' :
  recognize_audio self audio_path w = (Ok r, w') -> all_or_nothing r.
Proof.
  intros H.
  destruct (decide (audio_path ∈ files w)) as [Hin | Hout].
  - destruct (conversion self audio_path w) as [[[p is_temp]|e] w1] eqn:Hconv.
    + destruct (recognize_audio_converted _ _ _ _ _ _ Hin Hconv)
        as (r1 & w2 & w3 & Hmode & _ & Hfinal).
      destruct (recognize_by_mode_returns self p w1) as (r2 & w2' & Hmode' & _ & Hsound & _).
      rewrite Hmode in Hmode'. injection Hmode' as <- <-.
      rewrite Hfinal in H. injection H as <- _. exact Hsound.
    + rewrite (recognize_audio_conversion_raises _ _ _ _ _ Hin Hconv) in H. discriminate.
  - destruct (missing_file_result self audio_path w Hout) as (r0 & Hr0 & Ht & Hc).
    rewrite Hr0 in H. injection H as <- _. intros _. auto.
Qed.

(** [recognize_dingtalk_voice], step by step. *)
Lemma recognize_dingtalk_voice_steps self ogg_path w :
  let wav := tempname w (created w) ".wav" in
  let w0 := snd (NamedTemporaryFile ".wav" w) in
  recognize_dingtalk_voice self ogg_path w =
  match run w (dingtalk_cmd ogg_path wav) with
  | Ok _ =>
      match recognize_audio self wav w0 with
      | (Ok r, w1) =>
          match os_remove wav w1 with
          | (Ok _, w2) => (Ok r, w2)
          | (Raise e, w2) => dingtalk_handler self ogg_path wav e w2
          end
      | (Raise e, w1) => dingtalk_handler self ogg_path wav e w1
      end
  | Raise e => dingtalk_handler self ogg_path wav e w0
  end.
Proof.
  intros wav w0. subst wav w0.
  unfold recognize_dingtalk_voice, dingtalk_handler, NamedTemporaryFile, subprocess_run,
    bind, try_except, ret.
  cbn beta iota zeta delta [ASR.run tempname created fst snd].
  destruct (run w _) as [[]|e].
  - destruct (recognize_audio self _ _) as [[r|e] w1].
    + destruct (os_remove _ w1) as [[[]|e] w2]; [reflexivity|].
      destruct e; reflexivity.
    + destruct e; reflexivity.
  - destruct e; reflexivity.
Qed.

Lemma dingtalk_handler_sound self ogg_path wav e w r w' :
  dingtalk_handler self ogg_path wav e w = (Ok r, w') -> all_or_nothing r.
Proof.
  assert (forall w r w',
             (there <- os_path_exists wav ;;
              (if (there : bool) then os_remove wav else ret tt) ;;;
              ret {| text := ""; confidence := 0;
                     mode := ASRConfig.mode (config self);
                     processing_time := 0;
                     language := ASRConfig.language (config self);
                     error := Some ("钉钉语音处理失败: " +:+ exn_str e) |}) w
             = (Ok r, w') -> all_or_nothing r) as Hfail.
  { clear. intros w r w'. unfold os_path_exists, os_remove, bind, ret.
    cbn beta iota zeta.
    destruct (bool_decide (wav ∈ files w)) eqn:Hin; cbn beta iota zeta.
    - rewrite Hin. intros H. injection H as <- _. intros _. split; reflexivity.
    - intros H. injection H as <- _. intros _. split; reflexivity. }
  unfold dingtalk_handler. destruct e; first [apply recognize_audio_sound | apply Hfail].
Qed.

(** X4. No partial result comes with an error: a result of
    [recognize_audio] or of [recognize_dingtalk_voice] that reports an error
    has an empty text and the confidence 0. *)
Theorem error_results_carry_no_text self path w r w' :
  recognize_audio self path w = (Ok r, w') \/
  recognize_dingtalk_voice self path w = (Ok r, w') ->
  is_Some (error r) ->
  text r = "" /\ confidence r = 0%Q.
Proof.
  intros [H | H]; [exact (recognize_audio_sound _ _ _ _ _ H)|].
  rewrite recognize_dingtalk_voice_steps in H.
  destruct (run w _) as [[]|e]; [|exact (dingtalk_handler_sound _ _ _ _ _ _ _ H)].
  destruct (recognize_audio self _ _) as [[r1|e] w1] eqn:Hinner;
    [|exact (dingtalk_handler_sound _ _ _ _ _ _ _ H)].
  destruct (os_remove _ w1) as [[[]|e] w2];
    [|exact (dingtalk_handler_sound _ _ _ _ _ _ _ H)].
  injection H as <- _. exact (recognize_audio_sound _ _ _ _ _ Hinner).
Qed.

Lemma error_results_carry_no_text_witness :
  let final := recognize_dingtalk_voice default_recognizer "voice.ogg"
                 (studio no_ffmpeg UnknownValueError) in
  exists r,
    fst final = Ok r /\
    error r = Some "钉钉语音处理失败: [Errno 2] No such file or directory: 'ffmpeg'" /\
    text r = "" /\ confidence r = 0%Q.
Proof.
  intros final.
  eexists. split; [reflexivity|]. split; [reflexivity|].
  eapply (error_results_carry_no_text default_recognizer "voice.ogg"
            (studio no_ffmpeg UnknownValueError) _ (snd final)).
  - right. reflexivity.
  - eexists. reflexivity.
Defined.

(** X5. In the modes [GOOGLE] and [VOSK] one engine is called, once, on
    the converted path, and what it returns is the final result. *)
Theorem single_engine_modes self audio_path w p is_temp w1 :
  audio_path ∈ files w ->
  conversion self audio_path w = (Ok (p, is_temp), w1) ->
  let final := recognize_audio self audio_path w in
  (ASRConfig.mode (config self) = GOOGLE ->
     exists r w2, recognize_with_google self p w1 = (Ok r, w2) /\
                  fst final = Ok r /\ mode r = GOOGLE /\
                  calls (snd final) = CallGoogle p :: calls w) /\
  (ASRConfig.mode (config self) = VOSK ->
     exists r w2, recognize_with_vosk self p w1 = (Ok r, w2) /\
                  fst final = Ok r /\ mode r = VOSK /\
                  calls (snd final) = CallVosk p :: calls w).
Proof.
  intros Hin Hconv final. subst final.
  destruct (recognize_audio_converted _ _ _ _ _ _ Hin Hconv)
    as (r & w2 & w3 & Hmode & Hclean & Hfinal).
  destruct (cleanup_returns is_temp p w2) as (w3' & Hclean' & Hcalls3 & _).
  rewrite Hclean in Hclean'. injection Hclean' as <-.
  destruct (conversion_files_calls self audio_path w) as (Hcalls1 & _).
  rewrite Hconv in Hcalls1. simpl in Hcalls1.
  rewrite Hfinal. simpl. unfold recognize_by_mode in Hmode.
  split; intros Hm; rewrite Hm in Hmode; exists r, w2; (split; [exact Hmode|]);
    (split; [reflexivity|]).
  - destruct (recognize_with_google_returns self p w1) as (r' & w' & Hg & Hc & _).
    rewrite Hmode in Hg. injection Hg as <- <-. split; [|congruence].
    clear -Hmode. unfold recognize_with_google, log, time_time in Hmode. run.
    repeat branch; simplify_eq/=; reflexivity.
  - destruct (recognize_with_vosk_returns self p w1) as (r' & w' & Hv & Hc & _).
    rewrite Hmode in Hv. injection Hv as <- <-. split; [|congruence].
    clear -Hmode. unfold recognize_with_vosk, log, time_time in Hmode. run.
    repeat branch; simplify_eq/=; reflexivity.
Qed.

Lemma single_engine_modes_witness :
  let vosk_only :=
    {| config := {| ASRConfig.mode := VOSK; ASRConfig.language := "zh-CN";
                    ASRConfig.proxy := None; ASRConfig.vosk_model_path := None;
                    ASRConfig.google_api_key := None;
                    ASRConfig.auto_convert_formats := false;
                    ASRConfig.sample_rate := 16000; ASRConfig.channels := 1 |};
       vosk_model := true |} in
  let final := recognize_audio vosk_only "voice.ogg" (studio (Ok tt) (Heard "cloud")) in
  exists r, fst final = Ok r /\ text r = "你好" /\ calls (snd final) = [CallVosk "voice.ogg"].
Proof.
  intros vosk_only final.
  destruct (single_engine_modes vosk_only "voice.ogg" (studio (Ok tt) (Heard "cloud"))
              "voice.ogg" false (studio (Ok tt) (Heard "cloud"))) as [_ Hvosk].
  - simpl. set_solver.
  - reflexivity.
  - destruct (Hvosk eq_refl) as (r & w2 & Hr & Hfinal & _ & Hcalls).
    exists r. split; [exact Hfinal|]. split; [|exact Hcalls].
    injection Hr as <- _. reflexivity.
Defined.




(** X7. When both runs of ffmpeg succeed, [recognize_dingtalk_voice]
    returns a result and leaves no file behind: the file it made for the
    WAV audio and the one made for the conversion inside [recognize_audio]
    are both removed. *)
Theorem dingtalk_voice_leaves_no_file self ogg_path w :
  ASRConfig.auto_convert_formats (config self) = true ->
  let wav := tempname w (created w) ".wav" in
  let tmp := tempname w (S (created w)) ".wav" in
  wav ∉ files w ->
  tmp ∉ files w ->
  tmp <> wav ->
  run w (dingtalk_cmd ogg_path wav) = Ok tt ->
  run w (convert_cmd self wav tmp) = Ok tt ->
  exists r w',
    recognize_dingtalk_voice self ogg_path w = (Ok r, w') /\
    files w' = files w.
Proof.
  intros Hauto wav tmp Hwav Htmp Hne Hrun1 Hrun2.
  rewrite recognize_dingtalk_voice_steps. fold wav. rewrite Hrun1.
  set (w0 := snd (NamedTemporaryFile ".wav" w)).
  assert (files w0 = {[wav]} ∪ files w) as Hfiles0 by reflexivity.
  destruct (recognize_audio_after_conversion self wav w0 Hauto)
    as (r & w1 & Hr & Hfiles1 & _).
  - rewrite Hfiles0. apply elem_of_union_l, elem_of_singleton. reflexivity.
  - change (tmp ∉ files w0). rewrite Hfiles0. intros Hin.
    apply elem_of_union in Hin as [Hin | Hin]; [|contradiction].
    apply elem_of_singleton in Hin. contradiction.
  - exact Hrun2.
  - rewrite Hr. unfold os_remove.
    rewrite bool_decide_eq_true_2.
    + exists r. eexists. split; [reflexivity|]. simpl.
      rewrite Hfiles1, Hfiles0. apply add_remove_fresh, Hwav.
    + rewrite Hfiles1, Hfiles0. apply elem_of_union_l, elem_of_singleton. reflexivity.
Qed.

Lemma dingtalk_voice_leaves_no_file_witness :
  exists r w',
    recognize_dingtalk_voice default_recognizer "voice.ogg" (studio (Ok tt) (Heard "你好"))
      = (Ok r, w') /\
    files w' = {["voice.ogg"]}.
Proof.
  apply (dingtalk_voice_leaves_no_file default_recognizer "voice.ogg"
           (studio (Ok tt) (Heard "你好"))).
  - reflexivity.
  - simpl. apply not_elem_of_singleton. discriminate.
  - simpl. apply not_elem_of_singleton. discriminate.
  - discriminate.
  - reflexivity.
  - reflexivity.
Defined.




End ASRFacts.

(** * Facts about the DingTalk assistant *)

Module DingTalkFacts.
Import DingTalk.

Ltac unfold_send :=
  unfold send, send_text_message, send_markdown_message, send_link_message, batch_send,
    post_and_decode, raise_for_status, session_post, os_getenv;
  unfold bind, lift, raise, ret, get;
  cbn beta iota zeta delta [world self environ peer sent fst snd].

(** What a send makes of the environment: the robot code, and only when
    the argument [robot_code] is empty. *)
Lemma robot_code_choice robot_code (env1 env2 : gmap string string) :
  truthy robot_code = true \/
    env1 !! "DINGTALK_ROBOT_CODE" = env2 !! "DINGTALK_ROBOT_CODE" ->
  py_or robot_code (lookup_env env1 "DINGTALK_ROBOT_CODE")
    = py_or robot_code (lookup_env env2 "DINGTALK_ROBOT_CODE").
Proof.
  unfold py_or, lookup_env. intros [-> | ->]; reflexivity.
Qed.

(** C5, as the code has it. The access token is taken from the
    environment once, by the constructor. A send reads the environment
    again, for [DINGTALK_ROBOT_CODE]: what it returns, what it posts and
    the client it leaves are the same in two environments as soon as the
    argument [robot_code] is not empty or the two agree on that variable. *)
Theorem sends_read_only_the_robot_code call robot_code c env1 env2 peer0 sent0 :
  truthy robot_code = true \/
    env1 !! "DINGTALK_ROBOT_CODE" = env2 !! "DINGTALK_ROBOT_CODE" ->
  let run env :=
    send call robot_code
      {| world := {| environ := env; peer := peer0; sent := sent0 |}; self := c |} in
  fst (run env1) = fst (run env2) /\
  sent (world (snd (run env1))) = sent (world (snd (run env2))) /\
  self (snd (run env1)) = self (snd (run env2)).
Proof.
  intros H run. subst run.
  pose proof (robot_code_choice robot_code env1 env2 H) as Heq.
  destruct call; unfold_send.
  1: destruct (negb (truthy (access_token c))); [auto|]; unfold_send.
  all: rewrite Heq.
  1: destruct (negb (truthy _)); [auto|]; unfold_send.
  all: destruct (peer0 (length sent0) _) as [response|e]; [|auto].
  all: destruct (_ && _); auto.
Qed.

Lemma sends_read_only_the_robot_code_witness :
  let c := init JNull JNull (env_robot "robot-A") in
  let posted env :=
    sent (world (snd (send (SendText "u1" "hello") (JStr "robot-X") (in_environment c env)))) in
  posted (env_robot "robot-A") = posted (env_robot "robot-B").
Proof.
  intros c posted.
  apply (sends_read_only_the_robot_code (SendText "u1" "hello") (JStr "robot-X") c
           (env_robot "robot-A") (env_robot "robot-B") (fun _ _ => Ok acknowledged) []).
  left. reflexivity.
Defined.

(** C5 as stated fails: the client is made while the robot code in the
    environment is [robot-A]; the same send, without [robot_code], posts
    [robot-A] while the variable holds it and [robot-B] once the variable
    has been changed to it. *)
Lemma robot_code_follows_the_environment :
  let c := init JNull JNull (env_robot "robot-A") in
  let posted env :=
    map body (sent (world (snd (send_text_message "u1" "hello" JNull
                                  (in_environment c env))))) in
  posted (env_robot "robot-A") <> posted (env_robot "robot-B") /\
  posted (env_robot "robot-B")
    = [JObj [("robotCode", JStr "robot-B"); ("userIds", JArr [JStr "u1"]);
             ("msgKey", JStr "sampleText");
             ("msgParam", JStr (json_dumps (JObj [("content", JStr "hello")])))]].
Proof.
  intros c posted. split; [|reflexivity].
  intros H. vm_compute in H. discriminate H.
Qed.

Lemma post_and_decode_posts request s :
  sent (world (snd (post_and_decode request s))) = request :: sent (world s).
Proof.
  unfold post_and_decode, raise_for_status, session_post, bind, lift, raise, ret. simpl.
  repeat branch; simplify_eq/=; reflexivity.
Qed.

(** C9. With no access token set (the attribute is [None] or empty),
    [send_text_message] raises a [ValueError] and posts nothing, while
    [send_markdown_message], [send_link_message] and [batch_send] post
    their request, with the unset token in the header. *)
Theorem only_text_checks_the_token s :
  truthy (access_token (self s)) = false ->
  (forall user_id content robot_code,
      let r := send_text_message user_id content robot_code s in
      (exists msg, fst r = Raise (ValueError msg)) /\
      sent (world (snd r)) = sent (world s)) /\
  (forall call robot_code,
      (forall user_id content, call <> SendText user_id content) ->
      exists request,
        sent (world (snd (send call robot_code s))) = request :: sent (world s) /\
        headers request = [("x-acs-dingtalk-access-token", access_token (self s));
                           ("Content-Type", JStr "application/json")]).
Proof.
  intros Hnone. split.
  - intros user_id content robot_code r. subst r.
    unfold send_text_message, bind, get, raise.
    rewrite Hnone. simpl. eauto.
  - intros call robot_code Hcall.
    destruct call as [user_id content| | |]; [destruct (Hcall user_id content eq_refl)| | |];
      unfold send, send_markdown_message, send_link_message, batch_send, bind, get, os_getenv;
      cbn beta iota zeta; rewrite post_and_decode_posts;
      eexists; (split; [reflexivity|]); reflexivity.
Qed.

Lemma only_text_checks_the_token_witness :
  let s := in_environment (init JNull JNull ∅) ∅ in
  (exists msg, fst (send_text_message "u1" "hello" JNull s) = Raise (ValueError msg)) /\
  sent (world (snd (send_text_message "u1" "hello" JNull s))) = [] /\
  length (sent (world (snd (send_markdown_message "u1" "title" "hello" JNull s)))) = 1 /\
  length (sent (world (snd (send_link_message "u1" "title" "hello" "https://example.org"
                              JNull JNull s)))) = 1 /\
  length (sent (world (snd (batch_send ["u1"; "u2"] "sampleText"
                              (JObj [("content", JStr "hello")]) JNull s)))) = 1.
Proof.
  intros s.
  destruct (only_text_checks_the_token s eq_refl) as [Htext Hothers].
  destruct (Htext "u1" "hello" JNull) as [Hraise Hsent].
  split; [exact Hraise|]. split; [exact Hsent|].
  split; [|split].
  - destruct (Hothers (SendMarkdown "u1" "title" "hello") JNull) as (request & Hposted & _);
      [discriminate|].
    exact (f_equal (@length Request) Hposted).
  - destruct (Hothers (SendLink "u1" "title" "hello" "https://example.org" JNull) JNull)
      as (request & Hposted & _); [discriminate|].
    exact (f_equal (@length Request) Hposted).
  - destruct (Hothers (SendBatch ["u1"; "u2"] "sampleText" (JObj [("content", JStr "hello")]))
                JNull) as (request & Hposted & _); [discriminate|].
    exact (f_equal (@length Request) Hposted).
Defined.

(** ** The token of the assistant *)

Ltac unfold_token :=
  unfold get_access_token, set_access_token, raise_for_status, session_post;
  unfold bind, lift, raise, ret, get, modify;
  cbn beta iota zeta delta [world self environ peer sent fst snd].

(** What a send posts, if it posts: the request built from the client, the
    robot code and the payload. *)
Lemma send_posts call robot_code s :
  sent (world (snd (send call robot_code s))) = sent (world s) \/
  exists request,
    sent (world (snd (send call robot_code s))) = request :: sent (world s) /\
    headers request = [("x-acs-dingtalk-access-token", access_token (self s));
                       ("Content-Type", JStr "application/json")].
Proof.
  destruct call;
    unfold send, send_text_message, send_markdown_message, send_link_message, batch_send,
      bind, get, os_getenv, raise;
    cbn beta iota zeta.
  1: destruct (negb (truthy (access_token (self s)))); [left; reflexivity|].
  1: cbn beta iota zeta.
  1: destruct (negb (truthy _)); [left; reflexivity|].
  all: right; rewrite post_and_decode_posts; eexists; split; reflexivity.
Qed.

(** X8. After [get_access_token] has returned a token, the client holds
    that token, and every request a send then posts carries it in the
    header [x-acs-dingtalk-access-token]. *)
Theorem fetched_token_is_stored_and_used client_id client_secret s token :
  fst (get_access_token client_id client_secret s) = Ok token ->
  let s1 := snd (get_access_token client_id client_secret s) in
  access_token (self s1) = token /\
  forall call robot_code,
    sent (world (snd (send call robot_code s1))) = sent (world s1) \/
    exists request,
      sent (world (snd (send call robot_code s1))) = request :: sent (world s1) /\
      headers request = [("x-acs-dingtalk-access-token", token);
                         ("Content-Type", JStr "application/json")].
Proof.
  intros Hok s1.
  assert (access_token (self s1) = token) as Htoken.
  { subst s1. revert Hok. unfold_token.
    destruct (peer (world s) _ _) as [response|e]; [|discriminate].
    destruct (_ && _); [discriminate|]. cbn beta iota zeta.
    destruct (json_body response) as [result|e]; [|discriminate]. cbn beta iota zeta.
    destruct (py_get result "accessToken" JNull) as [t|e]; [|discriminate].
    cbn. intros H. injection H as ->. reflexivity. }
  split; [exact Htoken|].
  intros call robot_code. rewrite <- Htoken. apply send_posts.
Qed.

Lemma fetched_token_is_stored_and_used_witness :
  let s := {| world := {| environ := env_robot "robot-A";
                          peer := fun _ _ => Ok {| status_code := 200;
                                                   json_body := Ok (JObj [("accessToken", JStr "abc");
                                                                          ("expireIn", JInt 7200)]) |};
                          sent := [] |};
              self := init JNull JNull ∅ |} in
  access_token (self (snd (get_access_token "id" "secret" s))) = JStr "abc".
Proof.
  intros s.
  apply (fetched_token_is_stored_and_used "id" "secret" s (JStr "abc")).
  reflexivity.
Defined.

(** X9. A call of [get_access_token] that fails, for whatever reason
    (transport, status, body that does not decode or is not an object),
    leaves the client as it was: the token it held is still there. Its
    request was posted all the same. *)
Theorem failed_token_fetch_keeps_token client_id client_secret s e :
  fst (get_access_token client_id client_secret s) = Raise e ->
  self (snd (get_access_token client_id client_secret s)) = self s /\
  length (sent (world (snd (get_access_token client_id client_secret s))))
    = S (length (sent (world s))).
Proof.
  unfold_token.
  destruct (peer (world s) _ _) as [response|e']; [|auto].
  destruct (_ && _); [auto|]. cbn beta iota zeta.
  destruct (json_body response) as [result|e']; [|auto]. cbn beta iota zeta.
  destruct (py_get result "accessToken" JNull) as [t|e']; [|auto].
  cbn. discriminate.
Qed.

Lemma failed_token_fetch_keeps_token_witness :
  let s := {| world := {| environ := ∅;
                          peer := fun _ _ => Ok {| status_code := 401;
                                                   json_body := Ok (JObj [("code", JStr "Forbidden")]) |};
                          sent := [] |};
              self := init (JStr "old-token") JNull ∅ |} in
  access_token (self (snd (get_access_token "id" "secret" s))) = JStr "old-token".
Proof.
  intros s.
  destruct (failed_token_fetch_keeps_token "id" "secret" s (HTTPError 401) eq_refl)
    as [Hself _].
  rewrite Hself. reflexivity.
Defined.

(** X10. A response with a good status whose body is an object without
    [accessToken] makes [get_access_token] return [None] and replace the
    token the client held by [None]; [send_text_message] then refuses to
    send. *)
Theorem token_fetch_without_field_clears_token client_id client_secret s response fields :
  (forall request, peer (world s) (length (sent (world s))) request = Ok response) ->
  (400 <=? status_code response)%Z && (status_code response <? 600)%Z = false ->
  json_body response = Ok (JObj fields) ->
  dict_get "accessToken" fields = None ->
  let s1 := snd (get_access_token client_id client_secret s) in
  fst (get_access_token client_id client_secret s) = Ok JNull /\
  access_token (self s1) = JNull /\
  forall user_id content robot_code,
    (exists msg, fst (send_text_message user_id content robot_code s1) = Raise (ValueError msg)) /\
    sent (world (snd (send_text_message user_id content robot_code s1))) = sent (world s1).
Proof.
  intros Hpeer Hstatus Hjson Hfield s1.
  assert (get_access_token client_id client_secret s
          = (Ok JNull,
             {| world := {| environ := environ (world s); peer := peer (world s);
                            sent := {| url := base_url (self s) +:+ "/oauth2/accessToken";
                                       headers := [];
                                       body := JObj [("appKey", JStr client_id);
                                                     ("appSecret", JStr client_secret)] |}
                                    :: sent (world s) |};
                self := {| access_token := JNull; base_url := base_url (self s);
                           proxy := proxy (self s) |} |})) as Hrun.
  { unfold_token. rewrite Hpeer, Hstatus. cbn beta iota zeta.
    rewrite Hjson. cbn beta iota zeta delta [py_get]. rewrite Hfield. reflexivity. }
  subst s1. rewrite Hrun. split; [reflexivity|]. split; [reflexivity|].
  intros user_id content robot_code.
  unfold send_text_message, bind, get, raise. simpl. eauto.
Qed.

Lemma token_fetch_without_field_clears_token_witness :
  let s := {| world := {| environ := ∅;
                          peer := fun _ _ => Ok {| status_code := 200;
                                                   json_body := Ok (JObj [("code", JStr "invalid")]) |};
                          sent := [] |};
              self := init (JStr "old-token") JNull ∅ |} in
  access_token (self (snd (get_access_token "id" "secret" s))) = JNull.
Proof.
  intros s.
  apply (token_fetch_without_field_clears_token "id" "secret" s
           {| status_code := 200; json_body := Ok (JObj [("code", JStr "invalid")]) |}
           [("code", JStr "invalid")]); reflexivity.
Defined.

(** X11. With a token but no robot code, neither in the argument nor in
    [DINGTALK_ROBOT_CODE] (unset or empty), [send_text_message] raises a
    [ValueError] and posts nothing, while [send_markdown_message] posts a
    request whose [robotCode] is the empty value it found. *)
Theorem only_text_checks_the_robot_code s robot_code :
  truthy (access_token (self s)) = true ->
  truthy robot_code = false ->
  truthy (lookup_env (environ (world s)) "DINGTALK_ROBOT_CODE") = false ->
  (forall user_id content,
      fst (send_text_message user_id content robot_code s)
        = Raise (ValueError "机器人Code未设置") /\
      sent (world (snd (send_text_message user_id content robot_code s))) = sent (world s)) /\
  (forall user_id title text,
      sent (world (snd (send_markdown_message user_id title text robot_code s)))
        = batchSend (self s) (lookup_env (environ (world s)) "DINGTALK_ROBOT_CODE")
            [user_id] "sampleMarkdown" (JObj [("title", JStr title); ("text", JStr text)])
          :: sent (world s)).
Proof.
  intros Htoken Hrc Henv. split.
  - intros user_id content.
    unfold send_text_message, bind, get, raise, os_getenv. rewrite Htoken.
    cbn beta iota zeta delta [negb]. unfold py_or. rewrite Hrc, Henv. auto.
  - intros user_id title text.
    unfold send_markdown_message, bind, get, os_getenv. cbn beta iota zeta.
    rewrite post_and_decode_posts. unfold py_or. rewrite Hrc. reflexivity.
Qed.

Lemma only_text_checks_the_robot_code_witness :
  let s := in_environment (init (JStr "tok") JNull ∅) ∅ in
  fst (send_text_message "u1" "hello" JNull s) = Raise (ValueError "机器人Code未设置") /\
  sent (world (snd (send_text_message "u1" "hello" JNull s))) = [].
Proof.
  intros s.
  destruct (only_text_checks_the_robot_code s JNull) as [Htext _]; try reflexivity.
  apply Htext.
Defined.

(** X22. A send changes nothing of the client (the token stays the one it
    was), reads the environment without changing it, and posts at most one
    request. *)
Theorem sends_leave_the_client_alone call robot_code s :
  let s' := snd (send call robot_code s) in
  self s' = self s /\
  environ (world s') = environ (world s) /\
  (sent (world s') = sent (world s) \/
   exists request, sent (world s') = request :: sent (world s)).
Proof.
  intros s'. subst s'.
  assert (forall request,
             self (snd (post_and_decode request s)) = self s /\
             environ (world (snd (post_and_decode request s))) = environ (world s)) as Hpost.
  { intros request.
    unfold post_and_decode, raise_for_status, session_post, bind, lift, raise, ret. simpl.
    repeat branch; simplify_eq/=; auto. }
  split; [|split].
  - destruct call;
      unfold send, send_text_message, send_markdown_message, send_link_message, batch_send,
        bind, get, os_getenv, raise;
      cbn beta iota zeta.
    1: destruct (negb (truthy (access_token (self s)))); [reflexivity|].
    1: cbn beta iota zeta.
    1: destruct (negb (truthy _)); [reflexivity|].
    all: apply Hpost.
  - destruct call;
      unfold send, send_text_message, send_markdown_message, send_link_message, batch_send,
        bind, get, os_getenv, raise;
      cbn beta iota zeta.
    1: destruct (negb (truthy (access_token (self s)))); [reflexivity|].
    1: cbn beta iota zeta.
    1: destruct (negb (truthy _)); [reflexivity|].
    all: apply Hpost.
  - destruct (send_posts call robot_code s) as [H | (request & H & _)]; eauto.
Qed.

End DingTalkFacts.
